(** * sats-stacker-backend: the price proxy and its two caches

    A shallow embedding of the Express server of the repository (the last
    revision of the server file, together with the [btc_price_cache] table
    declared in [db.js]) and the properties of its caching policy.  The
    history handler of the earlier revision is in [Legacy].

    Conventions of the model.
    - JavaScript values are the inductive [jsval]; numbers that come out of
      [JSON.parse] are finite, so they are rationals here, and timestamps
      ([Date.now()], the INTEGER column) are integers in [Z].
    - Strings are byte strings.  The program only compares them with ASCII
      literals and changes the case of ASCII letters.
    - A handler is a computation in the monad [M]: it threads the process
      state ([world]: the SQLite table and the two module-level variables),
      records the storage and network calls it makes in a trace, and may
      throw.  What the outside world answers (the clock readings and the
      upstream reply) is an argument of the handler.
    - A handler runs from its first statement to its response without
      another handler in between; [console.log] output is left out, except
      the count reported by the pruning sweep. *)

From Stdlib Require Import ZArith QArith Ascii String List Lia.
From stdpp Require Import base option list strings pretty gmap fin_maps.

Local Open Scope Z_scope.
Local Open Scope string_scope.

(** ** JavaScript values *)

Module JS.

#[local] Unset Elimination Schemes.
Inductive jsval : Type :=
| JUndef
| JNull
| JBool (b : bool)
| JNum (q : Q)
| JStr (s : string)
| JArr (items : list jsval)
| JObj (fields : list (string * jsval)).
#[local] Set Elimination Schemes.

(** ToBoolean: [undefined], [null], [false], [0] and the empty string are
    falsy, every array and object is truthy. *)
Definition truthy (v : jsval) : bool :=
  match v with
  | JUndef | JNull => false
  | JBool b => b
  | JNum q => negb (Qeq_bool q 0)
  | JStr s => negb (String.eqb s "")
  | JArr _ | JObj _ => true
  end.

Fixpoint assoc (k : string) (fields : list (string * jsval)) : option jsval :=
  match fields with
  | [] => None
  | (k', v) :: rest => if String.eqb k k' then Some v else assoc k rest
  end.

(** [v[k]] on a value that is neither [undefined] nor [null], for a key
    that no prototype defines (every key the program reads is one). *)
Definition prop (v : jsval) (k : string) : jsval :=
  match v with
  | JObj fields => default JUndef (assoc k fields)
  | _ => JUndef
  end.

(** [v?.k] *)
Definition opt_prop (v : jsval) (k : string) : jsval :=
  match v with
  | JUndef | JNull => JUndef
  | _ => prop v k
  end.

(** [o[k] = v] on a plain object: an existing key keeps its place, a new
    key goes last. *)
Fixpoint set_field (k : string) (v : jsval) (fields : list (string * jsval))
  : list (string * jsval) :=
  match fields with
  | [] => [(k, v)]
  | (k', v') :: rest =>
      if String.eqb k k' then (k, v) :: rest else (k', v') :: set_field k v rest
  end.

(** [Object.keys(o)] *)
Definition keys (fields : list (string * jsval)) : list string := map fst fields.

(** [JSON.parse(JSON.stringify(v))]: what is read back from a TEXT column
    that was written with [JSON.stringify(v)].  Members whose value is
    [undefined] are dropped, [undefined] array items become [null]. *)
Fixpoint JSON_roundtrip (v : jsval) : jsval :=
  match v with
  | JArr items =>
      JArr (map (fun x => match JSON_roundtrip x with
                          | JUndef => JNull
                          | y => y
                          end) items)
  | JObj fields =>
      JObj ((fix members (fs : list (string * jsval)) : list (string * jsval) :=
               match fs with
               | [] => []
               | (k, x) :: rest =>
                   match x with
                   | JUndef => members rest
                   | _ => (k, JSON_roundtrip x) :: members rest
                   end
               end) fields)
  | _ => v
  end.

(** A value as [JSON.parse] produces it: no [undefined] anywhere. *)
Fixpoint is_json (v : jsval) : bool :=
  match v with
  | JUndef => false
  | JArr items => forallb is_json items
  | JObj fields =>
      (fix members (fs : list (string * jsval)) : bool :=
         match fs with
         | [] => true
         | (_, x) :: rest => is_json x && members rest
         end) fields
  | _ => true
  end.

(** ASCII case mapping, as [toLowerCase] and [toUpperCase] act on the
    letters of the currency codes. *)
Definition lower_ascii (c : ascii) : ascii :=
  let n := nat_of_ascii c in
  if (Nat.leb 65 n && Nat.leb n 90)%bool then ascii_of_nat (n + 32) else c.

Definition upper_ascii (c : ascii) : ascii :=
  let n := nat_of_ascii c in
  if (Nat.leb 97 n && Nat.leb n 122)%bool then ascii_of_nat (n - 32) else c.

Fixpoint string_map (f : ascii -> ascii) (s : string) : string :=
  match s with
  | EmptyString => EmptyString
  | String c rest => String (f c) (string_map f rest)
  end.

Definition toLowerCase : string -> string := string_map lower_ascii.
Definition toUpperCase : string -> string := string_map upper_ascii.

(** [xs.join(sep)] *)
Fixpoint join (sep : string) (xs : list string) : string :=
  match xs with
  | [] => ""
  | [x] => x
  | x :: rest => x ++ sep ++ join sep rest
  end.

(** [xs.includes(x)] *)
Definition includes (xs : list string) (x : string) : bool :=
  existsb (String.eqb x) xs.

End JS.
Import JS.

(** ** Process state, observable calls, and the handler monad *)

(** A row of [btc_price_cache].  Column [date] is the primary key and is the
    key of the map; [price_data] is JSON text and is held here as the value
    that text denotes. *)
Record row := Row { price_data : jsval; timestamp : Z }.

(** The table, and the module-level [cachedBtcData] and [lastFetchTime]. *)
Record world := World {
  db : gmap string row;
  cachedBtcData : jsval;
  lastFetchTime : Z
}.

Definition init_world : world :=
  {| db := ∅; cachedBtcData := JNull; lastFetchTime := 0 |}.

(** The two upstream endpoints; the API key in the URL is configuration. *)
Inductive endpoint :=
| SimplePrice (vs_currencies : string)
| CoinHistory (date : string).

Inductive event :=
| EvFetch (e : endpoint)
| EvSelect (key : string)
| EvInsertOrReplace (key : string)
| EvDelete (cutoff : Z)
| EvLogPruned (changes : nat).

Definition is_fetch (e : event) : bool :=
  match e with EvFetch _ => true | _ => false end.

Definition upstream_calls (tr : list event) : nat := List.length (List.filter is_fetch tr).

(** What [await fetch(url)] and [await response.json()] give. *)
Record response := Response {
  resp_ok : bool;
  resp_status : Z;
  resp_statusText : string;
  resp_json : option jsval      (* [None]: the body is not JSON *)
}.

Inductive fetch_result :=
| FetchRejected
| FetchResolved (r : response).

Inductive exn :=
| Error (message : string)
| TypeError
| FetchError
| SyntaxError.

Inductive result (A : Type) :=
| Val (a : A)
| Throw (e : exn).
Arguments Val {A} a.
Arguments Throw {A} e.

Definition M (A : Type) : Type := world * list event → result A * (world * list event).

#[global] Instance M_ret : MRet M := λ A a s, (Val a, s).
#[global] Instance M_bind : MBind M := λ A B f m s,
  match m s with
  | (Val a, s') => f a s'
  | (Throw e, s') => (Throw e, s')
  end.

Definition throw {A} (e : exn) : M A := λ s, (Throw e, s).

Definition try_catch {A} (body : M A) (handler : exn → M A) : M A := λ s,
  match body s with
  | (Val a, s') => (Val a, s')
  | (Throw e, s') => handler e s'
  end.

Definition get_world : M world := λ s, (Val s.1, s).
Definition put_world (w : world) : M unit := λ s, (Val tt, (w, s.2)).
Definition emit (e : event) : M unit := λ s, (Val tt, (s.1, app s.2 [e])).

Definition run {A} (m : M A) (w : world) : result A * (world * list event) := m (w, []).

(** [res.status(code).json(body)]; [res.json(body)] is status 200. *)
Record http_response := Http { status : Z; body : jsval }.

Definition res_json (code : Z) (b : jsval) : M http_response := mret (Http code b).

Definition error_body (msg : string) : jsval := JObj [("error", JStr msg)].

(** [await fetch(url)] *)
Definition fetch (e : endpoint) (up : fetch_result) : M response :=
  emit (EvFetch e);;
  match up with
  | FetchRejected => throw FetchError
  | FetchResolved r => mret r
  end.

(** [await response.json()] *)
Definition response_json (r : response) : M jsval :=
  match resp_json r with
  | Some data => mret data
  | None => throw SyntaxError
  end.

(** [v[k]] where [v] may be [undefined] or [null] *)
Definition member (v : jsval) (k : string) : M jsval :=
  match v with
  | JUndef | JNull => throw TypeError
  | _ => mret (prop v k)
  end.

(** [xs.forEach(f)] and [for (const x of xs)] over a local accumulator *)
Fixpoint forEach {A S : Type} (xs : list A) (f : A → S → M S) (acc : S) : M S :=
  match xs with
  | [] => mret acc
  | x :: rest => acc' ← f x acc; forEach rest f acc'
  end.

(** ** The storage helpers *)

Definition oneDayMs : Z := 24 * 60 * 60 * 1000.
Definition CACHE_DURATION_MS : Z := 5 * 60 * 1000.
(** The period of the [setInterval] that runs the sweep. *)
Definition PRUNE_INTERVAL_MS : Z := 5 * 60 * 60 * 1000.

Definition set_db (w : world) (d : gmap string row) : world :=
  {| db := d; cachedBtcData := cachedBtcData w; lastFetchTime := lastFetchTime w |}.

(** [getPriceFromCache(date)]; [now] is its reading of [Date.now()]. *)
Definition getPriceFromCache (date : string) (now : Z) : M jsval :=
  emit (EvSelect date);;
  w ← get_world;
  match db w !! date with
  | Some r =>
      let age := now - timestamp r in
      if (age <? oneDayMs)%Z then mret (price_data r) else mret JNull
  | None => mret JNull
  end.

Definition stale (cutoff : Z) (kr : string * row) : Prop := timestamp kr.2 < cutoff.

#[global] Instance stale_dec cutoff kr : Decision (stale cutoff kr) :=
  decide (timestamp kr.2 < cutoff).

(** [pruneOldCacheEntries(maxAgeMs)]: DELETE ... WHERE timestamp < cutoff,
    then the log line with [deleted.changes]. *)
Definition pruneOldCacheEntries (maxAgeMs : Z) (now : Z) : M unit :=
  let cutoff := now - maxAgeMs in
  w ← get_world;
  emit (EvDelete cutoff);;
  put_world (set_db w (filter (λ kr, ¬ stale cutoff kr) (db w)));;
  emit (EvLogPruned (size (filter (stale cutoff) (db w)))).

(** The callback of [setInterval]: the sweep with its default argument. *)
Definition prune_tick (now : Z) : M unit := pruneOldCacheEntries oneDayMs now.

(** [savePriceToCache(date, priceData)]: INSERT OR REPLACE of the row. *)
Definition savePriceToCache (date : string) (priceData : jsval) (now : Z) : M unit :=
  let timestamp := now in
  w ← get_world;
  emit (EvInsertOrReplace date);;
  put_world (set_db w (<[date := Row (JSON_roundtrip priceData) timestamp]> (db w))).

(** ** GET /btc-data *)

Definition live_currencies : list string := ["usd"; "aud"; "gbp"; "eur"; "cad"].

Definition format_currency (data : jsval) (currency : string)
    (btcData : list (string * jsval)) : M (list (string * jsval)) :=
  let upper := toUpperCase currency in
  b1 ← member data "bitcoin";
  price ← member b1 currency;
  b2 ← member data "bitcoin";
  percentChange24h ← member b2 (currency ++ "_24h_change");
  b3 ← member data "bitcoin";
  marketCap ← member b3 (currency ++ "_market_cap");
  mret (set_field upper
          (JObj [("price", price);
                 ("percentChange24h", percentChange24h);
                 ("marketCap", marketCap)])
          btcData).

Definition btc_data_failed : http_response :=
  Http 500 (error_body "Failed to fetch BTC data").

Definition btc_data (now : Z) (up : fetch_result) : M http_response :=
  w ← get_world;
  if truthy (cachedBtcData w) && (now - lastFetchTime w <? CACHE_DURATION_MS)%Z then
    res_json 200 (cachedBtcData w)
  else
    try_catch
      (let currencies := live_currencies in
       let currencyParams := join "," currencies in
       response ← fetch (SimplePrice currencyParams) up;
       if negb (resp_ok response) then
         throw (Error ("CoinGecko API error: " ++ resp_statusText response))
       else
         data ← response_json response;
         btcData ← forEach currencies (format_currency data) [];
         w' ← get_world;
         put_world {| db := db w'; cachedBtcData := JObj btcData; lastFetchTime := now |};;
         res_json 200 (JObj btcData))
      (λ err, mret btc_data_failed).

(** ** GET /btc-price-history/:date *)

(** A value of [req.query]: a string, an array (a repeated parameter) or a
    nested object. *)
#[local] Unset Elimination Schemes.
Inductive qparam :=
| QStr (s : string)
| QArr (items : list qparam)
| QObj.
#[local] Set Elimination Schemes.

Fixpoint qtoString (q : qparam) : string :=
  match q with
  | QStr s => s
  | QArr items => join "," (map qtoString items)
  | QObj => "[object Object]"
  end.

(** The regular expressions the program uses: an anchored sequence of
    one-character atoms. *)
Inductive atom :=
| Digit
| Char (c : ascii).

Definition atom_match (a : atom) (c : ascii) : bool :=
  match a with
  | Digit => let n := nat_of_ascii c in Nat.leb 48 n && Nat.leb n 57
  | Char c' => Ascii.eqb c c'
  end.

Fixpoint regex_test (re : list atom) (s : string) : bool :=
  match re, s with
  | [], EmptyString => true
  | a :: re', String c s' => atom_match a c && regex_test re' s'
  | _, _ => false
  end.

(** [/^\d{2}-\d{2}-\d{4}$/] *)
Definition date_regex : list atom :=
  repeat Digit 2 ++ [Char "-"%char] ++ repeat Digit 2 ++ [Char "-"%char] ++ repeat Digit 4.

Definition supportedCurrencies : list string := ["usd"; "aud"; "cad"; "eur"; "gbp"].

(** [req.query.currency?.toString().toLowerCase()]; [None] is [undefined]. *)
Definition currencyParam (currency : option qparam) : option string :=
  (λ q, toLowerCase (qtoString q)) <$> currency.

Definition isSingleCurrency (cp : option string) : bool :=
  match cp with
  | Some s => negb (String.eqb s "") && includes supportedCurrencies s
  | None => false
  end.

Definition currenciesToReturn (cp : option string) : list string :=
  match cp with
  | Some s => if isSingleCurrency cp then [s] else supportedCurrencies
  | None => supportedCurrencies
  end.

Definition cacheKey (date : string) (currencies : list string) : string :=
  date ++ "-" ++ join "," currencies.

Definition keep_price (allPrices : jsval) (currency : string)
    (filteredPrices : list (string * jsval)) : M (list (string * jsval)) :=
  p ← member allPrices currency;
  if truthy p then
    p' ← member allPrices currency;
    mret (set_field currency p' filteredPrices)
  else mret filteredPrices.

Definition invalid_date : http_response :=
  Http 400 (error_body "Invalid date format. Use dd-mm-yyyy.").
Definition price_data_unavailable : http_response :=
  Http 400 (error_body "Price data not available for this date").
Definition no_supported_currencies : http_response :=
  Http 400 (error_body "No supported currencies found for this date").
Definition history_failed : http_response :=
  Http 500 (error_body "Failed to fetch BTC price history").

(** [now_read] is the clock reading inside [getPriceFromCache], [now_write]
    the later one inside [savePriceToCache]. *)
Definition btc_price_history (date : string) (currency : option qparam)
    (now_read : Z) (up : fetch_result) (now_write : Z) : M http_response :=
  let currencyParam := currencyParam currency in
  if negb (regex_test date_regex date) then
    mret invalid_date
  else
    let currenciesToReturn := currenciesToReturn currencyParam in
    try_catch
      (let cacheKey := cacheKey date currenciesToReturn in
       cached ← getPriceFromCache cacheKey now_read;
       if truthy cached then res_json 200 cached
       else
         response ← fetch (CoinHistory date) up;
         if negb (resp_ok response) then
           throw (Error ("CoinGecko responded with status " ++ pretty (resp_status response)))
         else
           data ← response_json response;
           let allPrices := opt_prop (opt_prop data "market_data") "current_price" in
           if negb (truthy allPrices) then mret price_data_unavailable
           else
             filteredPrices ← forEach currenciesToReturn (keep_price allPrices) [];
             if (List.length (keys filteredPrices) =? 0)%nat then
               mret no_supported_currencies
             else
               let result := JObj [("date", JStr date); ("prices", JObj filteredPrices)] in
               savePriceToCache cacheKey result now_write;;
               res_json 200 result)
      (λ error, mret history_failed).

(** ** Derived notions used to state the properties *)

(** The row a lookup at time [now] accepts: present and younger than a day. *)
Definition fresh_entry (w : world) (key : string) (now : Z) : option row :=
  match db w !! key with
  | Some r => if (now - timestamp r <? oneDayMs)%Z then Some r else None
  | None => None
  end.

(** The upstream call succeeded and its body parsed to [data]. *)
Definition upstream_ok (up : fetch_result) (data : jsval) : Prop :=
  ∃ r, up = FetchResolved r ∧ resp_ok r = true ∧ resp_json r = Some data.

(** The upstream call failed, answered with a non-success status, or sent a
    body that is not JSON. *)
Definition upstream_failed (up : fetch_result) : Prop :=
  up = FetchRejected ∨
  ∃ r, up = FetchResolved r ∧ (resp_ok r = false ∨ resp_json r = None).

(** [data?.market_data?.current_price] *)
Definition allPrices_of (data : jsval) : jsval :=
  opt_prop (opt_prop data "market_data") "current_price".

(** The object the filtering loop of the history handler builds. *)
Definition kept_prices (allPrices : jsval) (currencies : list string)
    (acc : list (string * jsval)) : list (string * jsval) :=
  fold_left (λ fp c, if truthy (prop allPrices c)
                     then set_field c (prop allPrices c) fp else fp)
            currencies acc.

Definition history_result (date : string) (allPrices : jsval)
    (currencies : list string) : jsval :=
  JObj [("date", JStr date); ("prices", JObj (kept_prices allPrices currencies []))].

(** The payload has a [bitcoin] member that can be indexed. *)
Definition has_bitcoin (data : jsval) : bool :=
  match data with
  | JUndef | JNull => false
  | _ => match prop data "bitcoin" with
         | JUndef | JNull => false
         | _ => true
         end
  end.

(** The entry the live-price handler builds for one currency. *)
Definition live_entry (bitcoin : jsval) (currency : string) : jsval :=
  JObj [("price", prop bitcoin currency);
        ("percentChange24h", prop bitcoin (currency ++ "_24h_change"));
        ("marketCap", prop bitcoin (currency ++ "_market_cap"))].

Definition live_payload (data : jsval) (currencies : list string)
    (acc : list (string * jsval)) : list (string * jsval) :=
  fold_left (λ btcData c,
               set_field (toUpperCase c) (live_entry (prop data "bitcoin") c) btcData)
            currencies acc.

(** The live-price slot holds a payload that is still valid at [now]. *)
Definition live_cache_valid (w : world) (now : Z) : bool :=
  truthy (cachedBtcData w) && (now - lastFetchTime w <? CACHE_DURATION_MS)%Z.

(** The world a handler or the sweep leaves behind. *)
Definition world_after {A} (m : M A) (w : world) : world := (run m w).2.1.

(** A restart keeps the table, which is on disk, and resets the two
    module-level variables. *)
Definition restart (w : world) : world :=
  {| db := db w; cachedBtcData := JNull; lastFetchTime := 0 |}.

(** The states of the process: it starts with an empty table and an empty
    live-price slot, and then serves requests and sweeps, one at a time,
    and may be restarted. *)
Inductive reachable : world → Prop :=
| reach_init : reachable init_world
| reach_restart w : reachable w → reachable (restart w)
| reach_btc_data w now up :
    reachable w → reachable (world_after (btc_data now up) w)
| reach_history w date currency now_read up now_write :
    reachable w →
    reachable (world_after (btc_price_history date currency now_read up now_write) w)
| reach_prune w now :
    reachable w → reachable (world_after (prune_tick now) w).

(** What every reachable state satisfies: the live-price slot is [null] or
    an object, and every stored payload is an object. *)
Definition world_ok (w : world) : Prop :=
  (cachedBtcData w = JNull ∨ truthy (cachedBtcData w) = true) ∧
  ∀ k r, db w !! k = Some r → truthy (price_data r) = true.

(** The shape dd-mm-yyyy: two digits, two digits and four digits, separated
    by hyphens, and nothing else. *)
Definition is_digit (c : ascii) : Prop := (48 ≤ nat_of_ascii c ≤ 57)%nat.

Definition dd_mm_yyyy (s : string) : Prop :=
  ∃ d1 d2 m1 m2 y1 y2 y3 y4,
    s = String d1 (String d2 (String "-" (String m1 (String m2 (String "-"
          (String y1 (String y2 (String y3 (String y4 EmptyString))))))))) ∧
    Forall is_digit [d1; d2; m1; m2; y1; y2; y3; y4].

(** The filter as the specification words it: the requested currencies that
    occur in the price-data section, whatever value they have there. *)
Definition has_key (v : jsval) (k : string) : bool :=
  match v with
  | JObj fields => match assoc k fields with Some _ => true | None => false end
  | _ => false
  end.

Definition present_currencies (allPrices : jsval) (currencies : list string) : list string :=
  List.filter (has_key allPrices) currencies.

(** The change a history request makes to the table: nothing, or one row
    written under the request's key. *)
Definition apply_insert (key : string) (ins : option row) (w : world) : world :=
  match ins with
  | Some r => set_db w (<[key := r]> (db w))
  | None => w
  end.

(** A row as the history handler writes it: under the composite key of a
    well-formed date and an effective currency set, a payload made of that
    date and a non-empty object of prices of currencies of that set. *)
Definition stored_row_ok (k : string) (r : row) : Prop :=
  ∃ date cp prices,
    dd_mm_yyyy date ∧
    k = cacheKey date (currenciesToReturn cp) ∧
    price_data r = JObj [("date", JStr date); ("prices", JObj prices)] ∧
    prices ≠ [] ∧
    ∀ c, In c (keys prices) → In c (currenciesToReturn cp).

(** The earlier revision of the server, kept in the repository beside the
    current one.  Its storage helpers and its current-price handler are
    those of the current revision; its history handler keys the table by
    the date alone, stores the upstream body whole, and builds the URL
    from [apiKey], a name the module never declares (the constant is
    [API_KEY]). *)
Module Legacy.

(** Reading an identifier that is not declared: a ReferenceError with this
    message. *)
Definition undeclared (name : string) : M jsval :=
  throw (Error (name ++ " is not defined")).

Definition btc_price_history (date : string)
    (now_read : Z) (up : fetch_result) (now_write : Z) : M http_response :=
  if negb (regex_test date_regex date) then
    mret invalid_date
  else
    try_catch
      (cached ← getPriceFromCache date now_read;
       if truthy cached then res_json 200 cached
       else
         apiKey ← undeclared "apiKey";
         response ← fetch (CoinHistory date) up;
         if negb (resp_ok response) then
           throw (Error ("CoinGecko responded with status " ++ pretty (resp_status response)))
         else
           data ← response_json response;
           savePriceToCache date data now_write;;
           res_json 200 data)
      (λ error, mret history_failed).

End Legacy.

(** The text has a comma in it. *)
Fixpoint has_comma (s : string) : bool :=
  match s with
  | EmptyString => false
  | String c rest => Ascii.eqb c ","%char || has_comma rest
  end.

(** ** Basic facts *)

Ltac munfold :=
  cbv [mbind M_bind mret M_ret throw try_catch emit get_world put_world res_json
       fetch response_json].

Lemma getPriceFromCache_run key now w tr :
  getPriceFromCache key now (w, tr) =
  (Val (from_option price_data JNull (fresh_entry w key now)), (w, app tr [EvSelect key])).
Proof.
  unfold getPriceFromCache, fresh_entry, mbind, M_bind, emit, get_world, mret, M_ret.
  cbn. destruct (db w !! key) as [r|]; cbn; [|reflexivity].
  destruct (now - timestamp r <? oneDayMs)%Z; reflexivity.
Qed.

Lemma member_truthy v k : truthy v = true → ∀ st, member v k st = (Val (prop v k), st).
Proof. destruct v; cbn; intros H st; try discriminate; reflexivity. Qed.

Lemma keep_price_run allPrices c acc s : truthy allPrices = true →
  keep_price allPrices c acc s =
  (Val (if truthy (prop allPrices c) then set_field c (prop allPrices c) acc else acc), s).
Proof.
  intros Ht. unfold keep_price. munfold. rewrite (member_truthy _ _ Ht).
  destruct (truthy (prop allPrices c)); [|reflexivity].
  rewrite (member_truthy _ _ Ht). reflexivity.
Qed.

Lemma keep_prices_run allPrices cs : truthy allPrices = true →
  ∀ acc s, forEach cs (keep_price allPrices) acc s = (Val (kept_prices allPrices cs acc), s).
Proof.
  intros Ht. induction cs as [|c cs IH]; intros acc s; [reflexivity|].
  cbn [forEach kept_prices fold_left]. unfold mbind, M_bind.
  rewrite (keep_price_run _ _ _ _ Ht). apply IH.
Qed.

Lemma history_invalid date q t up t' w :
  regex_test date_regex date = false →
  run (btc_price_history date q t up t') w = (Val invalid_date, (w, [])).
Proof. intros H. unfold run, btc_price_history. rewrite H. reflexivity. Qed.

Lemma history_hit date q t up t' w r :
  regex_test date_regex date = true →
  fresh_entry w (cacheKey date (currenciesToReturn (currencyParam q))) t = Some r →
  truthy (price_data r) = true →
  run (btc_price_history date q t up t') w =
  (Val (Http 200 (price_data r)),
   (w, [EvSelect (cacheKey date (currenciesToReturn (currencyParam q)))])).
Proof.
  intros Hre Hf Ht. unfold run, btc_price_history. rewrite Hre. cbn [negb].
  munfold. rewrite getPriceFromCache_run, Hf. cbn [from_option].
  rewrite Ht. reflexivity.
Qed.

(** The outcome of the history handler once the lookup found nothing it
    accepts. *)
Lemma history_miss date q t up t' w :
  regex_test date_regex date = true →
  truthy (from_option price_data JNull
            (fresh_entry w (cacheKey date (currenciesToReturn (currencyParam q))) t)) = false →
  let cs := currenciesToReturn (currencyParam q) in
  let key := cacheKey date cs in
  run (btc_price_history date q t up t') w =
  match up with
  | FetchRejected => (Val history_failed, (w, [EvSelect key; EvFetch (CoinHistory date)]))
  | FetchResolved r =>
      if resp_ok r then
        match resp_json r with
        | None => (Val history_failed, (w, [EvSelect key; EvFetch (CoinHistory date)]))
        | Some data =>
            if truthy (allPrices_of data) then
              match kept_prices (allPrices_of data) cs [] with
              | [] => (Val no_supported_currencies,
                       (w, [EvSelect key; EvFetch (CoinHistory date)]))
              | _ :: _ =>
                  (Val (Http 200 (history_result date (allPrices_of data) cs)),
                   (set_db w (<[key := Row (JSON_roundtrip (history_result date (allPrices_of data) cs)) t']> (db w)),
                    [EvSelect key; EvFetch (CoinHistory date); EvInsertOrReplace key]))
              end
            else (Val price_data_unavailable,
                  (w, [EvSelect key; EvFetch (CoinHistory date)]))
        end
      else (Val history_failed, (w, [EvSelect key; EvFetch (CoinHistory date)]))
  end.
Proof.
  intros Hre Hm cs key. unfold run, btc_price_history. rewrite Hre. cbn [negb].
  munfold. rewrite getPriceFromCache_run. fold cs key. fold cs key in Hm. rewrite Hm.
  cbn [app fst snd].
  destruct up as [|r]; [reflexivity|].
  destruct (resp_ok r); cbn [negb]; [|reflexivity].
  destruct (resp_json r) as [data|]; [|reflexivity].
  fold (allPrices_of data).
  destruct (truthy (allPrices_of data)) eqn:Ht; cbn [negb]; [|reflexivity].
  rewrite (keep_prices_run _ _ Ht).
  unfold history_result.
  destruct (kept_prices (allPrices_of data) cs []) as [|p fp] eqn:Ek; [reflexivity|].
  cbn -[JSON_roundtrip]. reflexivity.
Qed.

Lemma format_currency_run data c acc s :
  format_currency data c acc s =
  if has_bitcoin data
  then (Val (set_field (toUpperCase c) (live_entry (prop data "bitcoin") c) acc), s)
  else (Throw TypeError, s).
Proof.
  unfold format_currency, has_bitcoin, live_entry. munfold.
  destruct data; try reflexivity; cbn [member prop]; munfold;
    try reflexivity.
  destruct (default JUndef (assoc "bitcoin" fields)); reflexivity.
Qed.

Lemma live_payload_run data cs :
  has_bitcoin data = true →
  ∀ acc s, forEach cs (format_currency data) acc s = (Val (live_payload data cs acc), s).
Proof.
  intros Hb. induction cs as [|c cs IH]; intros acc s; [reflexivity|].
  cbn [forEach live_payload fold_left]. unfold mbind, M_bind.
  rewrite format_currency_run, Hb. apply IH.
Qed.

Lemma btc_data_hit now up w :
  live_cache_valid w now = true →
  run (btc_data now up) w = (Val (Http 200 (cachedBtcData w)), (w, [])).
Proof.
  intros H. unfold run, btc_data. munfold. cbn [fst snd].
  unfold live_cache_valid in H. rewrite H. reflexivity.
Qed.

Lemma btc_data_refresh now up w :
  live_cache_valid w now = false →
  run (btc_data now up) w =
  let call := [EvFetch (SimplePrice "usd,aud,gbp,eur,cad")] in
  match up with
  | FetchRejected => (Val btc_data_failed, (w, call))
  | FetchResolved r =>
      if resp_ok r then
        match resp_json r with
        | None => (Val btc_data_failed, (w, call))
        | Some data =>
            if has_bitcoin data then
              let btcData := JObj (live_payload data live_currencies []) in
              (Val (Http 200 btcData),
               ({| db := db w; cachedBtcData := btcData; lastFetchTime := now |}, call))
            else (Val btc_data_failed, (w, call))
        end
      else (Val btc_data_failed, (w, call))
  end.
Proof.
  intros H. unfold run, btc_data. munfold. cbn [fst snd].
  unfold live_cache_valid in H. rewrite H.
  cbn [fst snd app join live_currencies String.append].
  destruct up as [|r]; [reflexivity|].
  destruct (resp_ok r); cbn [negb]; [|reflexivity].
  destruct (resp_json r) as [data|]; [|reflexivity].
  destruct (has_bitcoin data) eqn:Hb.
  - rewrite (live_payload_run _ _ Hb). reflexivity.
  - unfold live_currencies. cbn [forEach]. unfold mbind, M_bind.
    rewrite format_currency_run, Hb. reflexivity.
Qed.

Lemma prune_run maxAgeMs now w :
  run (pruneOldCacheEntries maxAgeMs now) w =
  (Val tt,
   (set_db w (filter (λ kr, ¬ stale (now - maxAgeMs) kr) (db w)),
    [EvDelete (now - maxAgeMs);
     EvLogPruned (size (filter (stale (now - maxAgeMs)) (db w)))])).
Proof. reflexivity. Qed.

Lemma world_ok_init : world_ok init_world.
Proof. split; [left; reflexivity|]. intros k r H. cbn in H. rewrite lookup_empty in H. discriminate. Qed.

Lemma world_ok_btc_data w now up : world_ok w → world_ok (world_after (btc_data now up) w).
Proof.
  intros [Hc Hd]. unfold world_after.
  destruct (live_cache_valid w now) eqn:E.
  - rewrite (btc_data_hit _ _ _ E). split; assumption.
  - rewrite (btc_data_refresh _ _ _ E). cbv zeta.
    destruct up as [|r]; [split; assumption|].
    destruct (resp_ok r); [|split; assumption].
    destruct (resp_json r) as [data|]; [|split; assumption].
    destruct (has_bitcoin data); [|split; assumption].
    split; [right; reflexivity|exact Hd].
Qed.

Lemma world_ok_history w date q t up t' :
  world_ok w → world_ok (world_after (btc_price_history date q t up t') w).
Proof.
  intros [Hc Hd]. unfold world_after.
  destruct (regex_test date_regex date) eqn:Hre;
    [|rewrite (history_invalid _ _ _ _ _ _ Hre); split; assumption].
  destruct (fresh_entry w (cacheKey date (currenciesToReturn (currencyParam q))) t)
    as [r|] eqn:Hf.
  - assert (Hr : db w !! cacheKey date (currenciesToReturn (currencyParam q)) = Some r).
    { unfold fresh_entry in Hf.
      destruct (db w !! _) as [r0|]; [|discriminate].
      destruct (_ <? _)%Z; congruence. }
    rewrite (history_hit _ _ _ _ _ _ _ Hre Hf (Hd _ _ Hr)). split; assumption.
  - rewrite (history_miss _ _ _ _ _ _ Hre) by (rewrite Hf; reflexivity).
    destruct up as [|r]; [split; assumption|].
    destruct (resp_ok r); [|split; assumption].
    destruct (resp_json r) as [data|]; [|split; assumption].
    destruct (truthy (allPrices_of data)); [|split; assumption].
    destruct (kept_prices _ _ _); [split; assumption|].
    split; [exact Hc|]. cbn [fst snd db set_db]. intros k r0.
    rewrite lookup_insert. case_decide.
    + intros [= <-]. reflexivity.
    + apply Hd.
Qed.

Lemma world_ok_prune w now : world_ok w → world_ok (world_after (prune_tick now) w).
Proof.
  intros [Hc Hd]. unfold world_after, prune_tick. rewrite prune_run.
  split; [exact Hc|]. cbn [fst snd db set_db]. intros k r H.
  apply map_lookup_filter_Some in H as [H _]. eauto.
Qed.

Lemma world_ok_restart w : world_ok w → world_ok (restart w).
Proof. intros [_ Hd]. split; [left; reflexivity|exact Hd]. Qed.

Lemma reachable_ok w : reachable w → world_ok w.
Proof.
  induction 1;
    auto using world_ok_init, world_ok_restart, world_ok_btc_data, world_ok_history,
               world_ok_prune.
Qed.

(** Induction on values, through the lists of items and members. *)
Lemma jsval_ind (P : jsval → Prop) :
  P JUndef → P JNull → (∀ b, P (JBool b)) → (∀ q, P (JNum q)) → (∀ s, P (JStr s)) →
  (∀ items, Forall P items → P (JArr items)) →
  (∀ fields, Forall (λ kv, P kv.2) fields → P (JObj fields)) →
  ∀ v, P v.
Proof.
  intros Hu Hn Hb Hq Hs Ha Ho.
  fix IH 1. intros [| |b|q|s|items|fields].
  - exact Hu.
  - exact Hn.
  - apply Hb.
  - apply Hq.
  - apply Hs.
  - apply Ha. induction items as [|x xs IHxs]; constructor; [apply IH|exact IHxs].
  - apply Ho. induction fields as [|[k x] fs IHfs]; constructor; [apply IH|exact IHfs].
Qed.

Lemma JSON_roundtrip_json v : is_json v = true → JSON_roundtrip v = v.
Proof.
  induction v as [| | | | |items IH|fields IH] using jsval_ind; intros H; try reflexivity.
  - cbn in H |- *. f_equal. induction IH as [|x xs Hx _ IHxs]; [reflexivity|].
    cbn in H |- *. apply andb_prop in H as [H1 H2].
    rewrite (Hx H1), (IHxs H2). destruct x; try reflexivity. discriminate.
  - cbn in H |- *. f_equal. induction IH as [|[k x] fs Hx _ IHfs]; [reflexivity|].
    cbn in H, Hx |- *. apply andb_prop in H as [H1 H2].
    rewrite (Hx H1), (IHfs H2). destruct x; try reflexivity. discriminate.
Qed.

Lemma is_json_assoc fields k v :
  is_json (JObj fields) = true → assoc k fields = Some v → is_json v = true.
Proof.
  induction fields as [|[k' x] fs IH]; cbn; [discriminate|].
  intros H. apply andb_prop in H as [H1 H2].
  destruct (String.eqb k k'); [intros [= <-]; exact H1|apply IH; exact H2].
Qed.

Lemma is_json_prop v k : is_json v = true → truthy (prop v k) = true → is_json (prop v k) = true.
Proof.
  destruct v; cbn; try discriminate. intros H.
  destruct (assoc k fields) as [x|] eqn:E; cbn; [|discriminate].
  intros _. eapply is_json_assoc; eauto.
Qed.

Lemma atom_match_digit c : atom_match Digit c = true ↔ is_digit c.
Proof.
  unfold atom_match, is_digit. rewrite andb_true_iff, !Nat.leb_le. reflexivity.
Qed.

Lemma atom_match_char c c' : atom_match (Char c') c = true ↔ c = c'.
Proof. apply Ascii.eqb_eq. Qed.

Lemma date_regex_spec s : regex_test date_regex s = true ↔ dd_mm_yyyy s.
Proof.
  unfold date_regex. cbn [repeat app]. split.
  - do 10 (destruct s as [|? s]; cbn [regex_test];
           [rewrite ?andb_false_r; discriminate|]).
    destruct s; cbn [regex_test]; [|rewrite !andb_false_r; discriminate].
    rewrite !andb_true_iff, !atom_match_digit, !atom_match_char.
    intros (?&?&?&?&?&?&?&?&?&?&_). subst.
    do 8 eexists. split; [reflexivity|]. repeat (constructor; [assumption|]). constructor.
  - intros (d1&d2&m1&m2&y1&y2&y3&y4&->&H).
    repeat match goal with H : Forall _ (_ :: _) |- _ => inversion H; subst; clear H end.
    cbn [regex_test].
    rewrite !andb_true_iff, !atom_match_digit, !atom_match_char. tauto.
Qed.

Lemma fresh_entry_lookup w key now r :
  fresh_entry w key now = Some r ↔ db w !! key = Some r ∧ now - timestamp r < oneDayMs.
Proof.
  unfold fresh_entry. destruct (db w !! key) as [r0|]; [|split; [discriminate|intros [? _]; discriminate]].
  destruct (Z.ltb_spec (now - timestamp r0) oneDayMs); split.
  - intros [= <-]. auto.
  - intros [[= <-] _]. reflexivity.
  - discriminate.
  - intros [[= <-] ?]. lia.
Qed.

(** A request with a well-formed date is always answered, after a lookup
    under the composite key and at most one upstream call. *)
Lemma history_valid_answered date q t up t' w :
  regex_test date_regex date = true →
  ∃ resp w' tr,
    run (btc_price_history date q t up t') w =
      (Val resp, (w', EvSelect (cacheKey date (currenciesToReturn (currencyParam q))) :: tr)) ∧
    (upstream_calls tr ≤ 1)%nat.
Proof.
  intros Hre.
  destruct (truthy (from_option price_data JNull
              (fresh_entry w (cacheKey date (currenciesToReturn (currencyParam q))) t))) eqn:Ht.
  - destruct (fresh_entry w _ t) as [r|] eqn:Hf; [|discriminate].
    rewrite (history_hit _ _ _ _ _ _ _ Hre Hf Ht). do 3 eexists. split; [reflexivity|]. cbn. lia.
  - rewrite (history_miss _ _ _ _ _ _ Hre Ht).
    destruct up as [|r]; [do 3 eexists; split; [reflexivity|cbn; lia]|].
    destruct (resp_ok r); [|do 3 eexists; split; [reflexivity|cbn; lia]].
    destruct (resp_json r) as [data|]; [|do 3 eexists; split; [reflexivity|cbn; lia]].
    destruct (truthy (allPrices_of data)); [|do 3 eexists; split; [reflexivity|cbn; lia]].
    destruct (kept_prices _ _ _); do 3 eexists; (split; [reflexivity|cbn; lia]).
Qed.

(** C4. A date of the shape dd-mm-yyyy is accepted for further processing:
    the request is answered after the store has been consulted under the
    composite key.  Any other date string is rejected with status 400 and
    the message "Invalid date format. Use dd-mm-yyyy.", with no network
    or storage call and the state untouched. *)
Theorem date_validation (date : string) (currency : option qparam)
    (now_read : Z) (up : fetch_result) (now_write : Z) (w : world) :
  (dd_mm_yyyy date →
     ∃ resp w' tr,
       run (btc_price_history date currency now_read up now_write) w =
         (Val resp,
          (w', EvSelect (cacheKey date (currenciesToReturn (currencyParam currency))) :: tr)))
  ∧
  (¬ dd_mm_yyyy date →
     run (btc_price_history date currency now_read up now_write) w =
       (Val (Http 400 (JObj [("error", JStr "Invalid date format. Use dd-mm-yyyy.")])),
        (w, []))).
Proof.
  split; intros H.
  - apply date_regex_spec in H.
    destruct (history_valid_answered date currency now_read up now_write w H)
      as (resp & w' & tr & E & _). eauto.
  - apply history_invalid. destruct (regex_test date_regex date) eqn:E; [|reflexivity].
    apply date_regex_spec in E. contradiction.
Qed.

Lemma date_validation_witness :
  (∃ resp w' tr,
     run (btc_price_history "19-05-2025" (Some (QStr "usd")) 1000 FetchRejected 1001) init_world =
       (Val resp, (w', EvSelect "19-05-2025-usd" :: tr)))
  ∧
  run (btc_price_history "bad-date" None 1000 FetchRejected 1001) init_world =
    (Val (Http 400 (JObj [("error", JStr "Invalid date format. Use dd-mm-yyyy.")])),
     (init_world, [])).
Proof.
  split.
  - apply (proj1 (date_validation "19-05-2025" (Some (QStr "usd")) 1000 FetchRejected 1001
                    init_world)).
    apply date_regex_spec. vm_compute. reflexivity.
  - apply (proj2 (date_validation "bad-date" None 1000 FetchRejected 1001 init_world)).
    intros H. apply date_regex_spec in H. vm_compute in H. discriminate.
Defined.

Lemma includes_In xs x : includes xs x = true ↔ In x xs.
Proof.
  unfold includes. rewrite existsb_exists. split.
  - intros (y & Hy & E). apply String.eqb_eq in E. subst. exact Hy.
  - intros H. exists x. split; [exact H|apply String.eqb_refl].
Qed.

Lemma currenciesToReturn_cases cp :
  currenciesToReturn cp = supportedCurrencies ∨
  ∃ c, cp = Some c ∧ In c supportedCurrencies ∧ currenciesToReturn cp = [c].
Proof.
  destruct cp as [s|]; [|left; reflexivity]. unfold currenciesToReturn.
  destruct (isSingleCurrency (Some s)) eqn:E; [|left; reflexivity].
  right. exists s. cbn in E. apply andb_prop in E as [_ E].
  repeat split. apply includes_In. exact E.
Qed.

Lemma currenciesToReturn_unrecognized cp :
  (∀ c, cp = Some c → ¬ In c supportedCurrencies) →
  currenciesToReturn cp = supportedCurrencies.
Proof.
  intros H. destruct (currenciesToReturn_cases cp) as [E|(c & -> & Hin & _)]; [exact E|].
  destruct (H c eq_refl Hin).
Qed.

(** C5. The effective currency set is the singleton of the caller's currency
    when the parameter, lower-cased, is one of usd, aud, cad, eur, gbp (so
    the upper-case spelling of a code selects it too); in every other case (no parameter, an unrecognised one, several values) it
    is the full supported list, and the request is handled exactly as one
    without the parameter: the parameter never produces an error. *)
Theorem effective_currency_set (currency : option qparam) :
  (∀ q c, currency = Some q → In c supportedCurrencies →
          toLowerCase (qtoString q) = c →
          currenciesToReturn (currencyParam currency) = [c])
  ∧
  (∀ c, In c supportedCurrencies →
        currenciesToReturn (currencyParam (Some (QStr (toUpperCase c)))) = [c])
  ∧
  ((∀ q, currency = Some q → ¬ In (toLowerCase (qtoString q)) supportedCurrencies) →
     currenciesToReturn (currencyParam currency) = supportedCurrencies ∧
     ∀ date now_read up now_write w,
       run (btc_price_history date currency now_read up now_write) w =
       run (btc_price_history date None now_read up now_write) w).
Proof.
  split_and!.
  - intros q c -> Hin E. cbn [currencyParam fmap option_fmap option_map]. rewrite E.
    cbn in Hin. destruct Hin as [<-|[<-|[<-|[<-|[<-|[]]]]]]; reflexivity.
  - intros c Hin. cbn in Hin. destruct Hin as [<-|[<-|[<-|[<-|[<-|[]]]]]]; reflexivity.
  - intros H.
    assert (E : currenciesToReturn (currencyParam currency) = supportedCurrencies).
    { apply currenciesToReturn_unrecognized. intros c Hc.
      destruct currency as [q|]; [|discriminate]. cbn in Hc. injection Hc as <-.
      apply (H q eq_refl). }
    split; [exact E|]. intros date now_read up now_write w.
    unfold run, btc_price_history. rewrite E. reflexivity.
Qed.

Lemma effective_currency_set_witness :
  currenciesToReturn (currencyParam (Some (QStr "EUR"))) = ["eur"]
  ∧ currenciesToReturn (currencyParam (Some (QStr "btc"))) = supportedCurrencies
  ∧ run (btc_price_history "19-05-2025" (Some (QStr "btc")) 1000 FetchRejected 1001) init_world =
    run (btc_price_history "19-05-2025" None 1000 FetchRejected 1001) init_world.
Proof.
  split.
  - apply (proj1 (effective_currency_set (Some (QStr "EUR"))) (QStr "EUR") "eur").
    + reflexivity.
    + cbn. tauto.
    + reflexivity.
  - assert (H : ∀ q, Some (QStr "btc") = Some q →
                    ¬ In (toLowerCase (qtoString q)) supportedCurrencies).
    { intros q [= <-]. cbn. intros [H|[H|[H|[H|[H|[]]]]]]; discriminate. }
    destruct (proj2 (proj2 (effective_currency_set (Some (QStr "btc")))) H) as [E1 E2].
    split; [exact E1|apply E2].
Defined.

Lemma stale_filter_disjoint cutoff (m : gmap string row) :
  filter (stale cutoff) (filter (λ kr, ¬ stale cutoff kr) m) = ∅.
Proof.
  apply map_eq. intros k. rewrite lookup_empty.
  apply map_lookup_filter_None. right. intros r Hr Hs.
  apply map_lookup_filter_Some in Hr as [_ Hn]. exact (Hn Hs).
Qed.

Lemma fresh_filter_idemp cutoff (m : gmap string row) :
  filter (λ kr, ¬ stale cutoff kr) (filter (λ kr, ¬ stale cutoff kr) m) =
  filter (λ kr, ¬ stale cutoff kr) m.
Proof.
  apply map_eq. intros k. apply option_eq. intros r.
  rewrite !map_lookup_filter_Some. tauto.
Qed.

(** C3. A sweep at time [now] deletes exactly the entries written more than
    24 hours before [now] and reports how many there were; in particular an
    entry written 25 hours ago goes and one written 1 hour ago stays.  A
    second sweep at the same instant, with no write in between, deletes
    nothing. *)
Theorem prune_sweep (w : world) (now : Z) :
  let w1 := world_after (prune_tick now) w in
  run (prune_tick now) w =
    (Val tt, (w1, [EvDelete (now - oneDayMs);
                   EvLogPruned (size (filter (λ kr : string * row,
                                                now - timestamp kr.2 > oneDayMs) (db w)))]))
  ∧ cachedBtcData w1 = cachedBtcData w ∧ lastFetchTime w1 = lastFetchTime w
  ∧ (∀ k r, db w1 !! k = Some r ↔ db w !! k = Some r ∧ ¬ (now - timestamp r > oneDayMs))
  ∧ (∀ k1 k2 r1 r2,
       db w !! k1 = Some r1 → timestamp r1 = now - 25 * 60 * 60 * 1000 →
       db w !! k2 = Some r2 → timestamp r2 = now - 1 * 60 * 60 * 1000 →
       db w1 !! k1 = None ∧ db w1 !! k2 = Some r2)
  ∧ run (prune_tick now) w1 =
      (Val tt, (w1, [EvDelete (now - oneDayMs); EvLogPruned 0])).
Proof.
  intros w1.
  assert (Hlook : ∀ k r, db w1 !! k = Some r ↔
                         db w !! k = Some r ∧ ¬ (now - timestamp r > oneDayMs)).
  { intros k r. unfold w1, world_after, prune_tick. rewrite prune_run.
    cbn [fst snd db set_db]. rewrite map_lookup_filter_Some. unfold stale. cbn [snd].
    split; intros [H1 H2]; (split; [exact H1|lia]). }
  split_and!.
  - unfold w1, world_after, prune_tick. rewrite !prune_run. cbn [fst snd].
    assert (E : filter (stale (now - oneDayMs)) (db w) =
                filter (λ kr : string * row, now - timestamp kr.2 > oneDayMs) (db w)).
    { apply map_filter_ext. intros k r _. unfold stale. cbn [snd]. lia. }
    rewrite E. reflexivity.
  - reflexivity.
  - reflexivity.
  - exact Hlook.
  - intros k1 k2 r1 r2 H1 T1 H2 T2. split.
    + destruct (db w1 !! k1) as [r|] eqn:E; [|reflexivity].
      apply Hlook in E as [E Hn]. rewrite E in H1. injection H1 as ->.
      exfalso. apply Hn. rewrite T1. unfold oneDayMs. lia.
    + apply Hlook. split; [assumption|]. rewrite T2. unfold oneDayMs. lia.
  - unfold prune_tick. rewrite prune_run.
    unfold w1, world_after, prune_tick. rewrite prune_run. cbn [fst snd db set_db].
    rewrite stale_filter_disjoint, fresh_filter_idemp. reflexivity.
Qed.

Lemma prune_sweep_witness :
  let w := {| db := <["19-05-2025-usd" := Row (JStr "old") (100 * 60 * 60 * 1000 - 25 * 60 * 60 * 1000)]>
                      (<["20-05-2025-usd" := Row (JStr "new") (100 * 60 * 60 * 1000 - 1 * 60 * 60 * 1000)]> ∅);
              cachedBtcData := JNull; lastFetchTime := 0 |} in
  let w1 := world_after (prune_tick (100 * 60 * 60 * 1000)) w in
  db w1 !! "19-05-2025-usd" = None ∧
  db w1 !! "20-05-2025-usd" = Some (Row (JStr "new") (100 * 60 * 60 * 1000 - 1 * 60 * 60 * 1000)).
Proof.
  intros w w1.
  apply (proj1 (proj2 (proj2 (proj2 (proj2 (prune_sweep w (100 * 60 * 60 * 1000))))))
           "19-05-2025-usd" "20-05-2025-usd"
           (Row (JStr "old") (100 * 60 * 60 * 1000 - 25 * 60 * 60 * 1000))
           (Row (JStr "new") (100 * 60 * 60 * 1000 - 1 * 60 * 60 * 1000))).
  - vm_compute. reflexivity.
  - reflexivity.
  - vm_compute. reflexivity.
  - reflexivity.
Defined.

Lemma string_app_inv_head (d x y : string) : d ++ x = d ++ y → x = y.
Proof. induction d as [|c d IH]; cbn; [auto|]. intros [= H]. auto. Qed.

Lemma prop_json v k : v = JUndef ∨ is_json v = true → prop v k = JUndef ∨ is_json (prop v k) = true.
Proof.
  intros [->|H]; [left; reflexivity|].
  destruct v; try (left; reflexivity). cbn.
  destruct (assoc k fields) as [x|] eqn:E; [|left; reflexivity].
  right. eapply is_json_assoc; eauto.
Qed.

Lemma opt_prop_json v k :
  v = JUndef ∨ is_json v = true → opt_prop v k = JUndef ∨ is_json (opt_prop v k) = true.
Proof.
  intros H. destruct v; try (left; reflexivity); apply (prop_json _ k H).
Qed.

Lemma allPrices_json data c :
  is_json data = true → truthy (prop (allPrices_of data) c) = true →
  is_json (prop (allPrices_of data) c) = true.
Proof.
  intros Hd Ht. unfold allPrices_of in *.
  destruct (prop_json (opt_prop (opt_prop data "market_data") "current_price") c) as [E|E].
  - apply opt_prop_json, opt_prop_json. right. exact Hd.
  - rewrite E in Ht. discriminate.
  - exact E.
Qed.

Lemma is_json_set_field k v fields :
  is_json v = true → is_json (JObj fields) = true → is_json (JObj (set_field k v fields)) = true.
Proof.
  intros Hv. induction fields as [|[k' x] fs IH]; cbn.
  - intros _. rewrite Hv. reflexivity.
  - intros H. apply andb_prop in H as [H1 H2]. destruct (String.eqb k k'); cbn.
    + rewrite Hv. exact H2.
    + rewrite H1. apply IH. exact H2.
Qed.

Lemma kept_prices_json data cs :
  is_json data = true →
  ∀ acc, is_json (JObj acc) = true → is_json (JObj (kept_prices (allPrices_of data) cs acc)) = true.
Proof.
  intros Hd. induction cs as [|c cs IH]; intros acc Hacc; [exact Hacc|].
  cbn [kept_prices fold_left]. apply IH.
  destruct (truthy (prop (allPrices_of data) c)) eqn:Ht; [|exact Hacc].
  apply is_json_set_field; [apply allPrices_json; assumption|exact Hacc].
Qed.

(** What is read back from the table is the result that was saved. *)
Lemma history_result_roundtrip date data cs :
  is_json data = true →
  JSON_roundtrip (history_result date (allPrices_of data) cs) =
  history_result date (allPrices_of data) cs.
Proof.
  intros Hd. apply JSON_roundtrip_json. unfold history_result.
  change (is_json (JObj (kept_prices (allPrices_of data) cs [])) && true = true).
  rewrite andb_true_r. apply kept_prices_json; [exact Hd|reflexivity].
Qed.

Lemma truthy_prop v k : truthy (prop v k) = true → truthy v = true.
Proof. destruct v; cbn; try discriminate. reflexivity. Qed.

Lemma kept_prices_single allPrices c :
  truthy (prop allPrices c) = true → kept_prices allPrices [c] [] = [(c, prop allPrices c)].
Proof. intros H. cbn [kept_prices fold_left]. rewrite H. reflexivity. Qed.

(** A miss followed by a usable upstream answer saves the result under the
    composite key and returns it. *)
Lemma history_saved date q t up data t' w :
  regex_test date_regex date = true →
  let cs := currenciesToReturn (currencyParam q) in
  let key := cacheKey date cs in
  let result := history_result date (allPrices_of data) cs in
  fresh_entry w key t = None →
  upstream_ok up data →
  truthy (allPrices_of data) = true →
  kept_prices (allPrices_of data) cs [] ≠ [] →
  run (btc_price_history date q t up t') w =
    (Val (Http 200 result),
     (set_db w (<[key := Row (JSON_roundtrip result) t']> (db w)),
      [EvSelect key; EvFetch (CoinHistory date); EvInsertOrReplace key])).
Proof.
  intros Hre cs key result Hf (r & -> & Hok & Hj) Ht Hk.
  rewrite (history_miss _ _ _ _ _ _ Hre) by (fold cs key; rewrite Hf; reflexivity).
  rewrite Hok, Hj, Ht. fold cs. destruct (kept_prices (allPrices_of data) cs []); [congruence|].
  reflexivity.
Qed.

(** The storage calls of a request and the one key it may write. *)
Lemma history_valid_shape date q t up t' w :
  regex_test date_regex date = true →
  let key := cacheKey date (currenciesToReturn (currencyParam q)) in
  ∃ resp w' tr,
    run (btc_price_history date q t up t') w = (Val resp, (w', EvSelect key :: tr)) ∧
    ((tr = [] ∧ w' = w) ∨
     (tr = [EvFetch (CoinHistory date)] ∧ w' = w) ∨
     (∃ payload, tr = [EvFetch (CoinHistory date); EvInsertOrReplace key] ∧
                 w' = set_db w (<[key := Row payload t']> (db w)))).
Proof.
  intros Hre key.
  destruct (truthy (from_option price_data JNull (fresh_entry w key t))) eqn:Ht.
  - destruct (fresh_entry w key t) as [r|] eqn:Hf; [|discriminate].
    rewrite (history_hit _ _ _ _ _ _ _ Hre Hf Ht). do 3 eexists. split; [reflexivity|]. auto.
  - rewrite (history_miss _ _ _ _ _ _ Hre Ht).
    destruct up as [|r]; [do 3 eexists; split; [reflexivity|auto]|].
    destruct (resp_ok r); [|do 3 eexists; split; [reflexivity|auto]].
    destruct (resp_json r) as [data|]; [|do 3 eexists; split; [reflexivity|auto]].
    destruct (truthy (allPrices_of data)); [|do 3 eexists; split; [reflexivity|auto]].
    destruct (kept_prices _ _ _); do 3 eexists; (split; [reflexivity|]); [auto|].
    right. right. eexists. split; reflexivity.
Qed.

(** C6. Every storage call of a history request uses the key made of the
    date, a hyphen, and the effective currencies joined with commas in
    their order, and only the entry under that key can change.  The order
    is part of the key.  For one date, a request for usd followed by a
    request for eur, each answered by the upstream service, leaves two
    entries under two different keys, each with its own payload. *)
Theorem composite_key (date : string) :
  (∀ currency now_read up now_write w resp w' tr,
     run (btc_price_history date currency now_read up now_write) w = (Val resp, (w', tr)) →
     let key := date ++ "-" ++ join "," (currenciesToReturn (currencyParam currency)) in
     (∀ k, In (EvSelect k) tr ∨ In (EvInsertOrReplace k) tr → k = key) ∧
     (∀ k, k ≠ key → db w' !! k = db w !! k))
  ∧ cacheKey date ["usd"; "eur"] ≠ cacheKey date ["eur"; "usd"]
  ∧ (∀ w t1 up1 data1 t1' t2 up2 data2 t2',
       dd_mm_yyyy date →
       fresh_entry w (date ++ "-usd") t1 = None →
       fresh_entry w (date ++ "-eur") t2 = None →
       upstream_ok up1 data1 → is_json data1 = true →
       truthy (prop (allPrices_of data1) "usd") = true →
       upstream_ok up2 data2 → is_json data2 = true →
       truthy (prop (allPrices_of data2) "eur") = true →
       let w1 := world_after (btc_price_history date (Some (QStr "usd")) t1 up1 t1') w in
       let w2 := world_after (btc_price_history date (Some (QStr "eur")) t2 up2 t2') w1 in
       date ++ "-usd" ≠ date ++ "-eur" ∧
       db w2 !! (date ++ "-usd") =
         Some (Row (JObj [("date", JStr date);
                          ("prices", JObj [("usd", prop (allPrices_of data1) "usd")])]) t1') ∧
       db w2 !! (date ++ "-eur") =
         Some (Row (JObj [("date", JStr date);
                          ("prices", JObj [("eur", prop (allPrices_of data2) "eur")])]) t2')).
Proof.
  split_and!.
  - intros currency now_read up now_write w resp w' tr Hrun key.
    destruct (regex_test date_regex date) eqn:Hre.
    + destruct (history_valid_shape date currency now_read up now_write w Hre)
        as (resp0 & w0 & tr0 & E & Hcases).
      rewrite E in Hrun. injection Hrun as <- <- <-.
      subst key. fold (cacheKey date (currenciesToReturn (currencyParam currency))).
      cbv zeta in Hcases.
      destruct Hcases as [[-> ->]|[[-> ->]|(payload & -> & ->)]]; split;
        try (intros k H; reflexivity).
      * intros k [[H|[]]|[H|[]]]; congruence.
      * intros k [[H|[H|[]]]|[H|[H|[]]]]; congruence.
      * intros k [[H|[H|[H|[]]]]|[H|[H|[H|[]]]]]; congruence.
      * intros k Hk. cbn [db set_db]. apply lookup_insert_ne. congruence.
    + rewrite (history_invalid _ _ _ _ _ _ Hre) in Hrun. injection Hrun as <- <- <-.
      split; [intros k [[]|[]]|reflexivity].
  - unfold cacheKey. intros H. apply string_app_inv_head in H. discriminate.
  - intros w t1 up1 data1 t1' t2 up2 data2 t2' Hd Hf1 Hf2 Hu1 Hj1 Hp1 Hu2 Hj2 Hp2 w1 w2.
    apply date_regex_spec in Hd.
    assert (Hne : date ++ "-usd" ≠ date ++ "-eur").
    { intros H. apply string_app_inv_head in H. discriminate. }
    assert (E1 : w1 = set_db w (<[date ++ "-usd" :=
                   Row (JObj [("date", JStr date);
                              ("prices", JObj [("usd", prop (allPrices_of data1) "usd")])]) t1']>
                   (db w))).
    { pose proof (history_saved date (Some (QStr "usd")) t1 up1 data1 t1' w Hd) as Hs.
      cbv zeta in Hs.
      change (currenciesToReturn (currencyParam (Some (QStr "usd")))) with ["usd"] in Hs.
      change (cacheKey date ["usd"]) with (date ++ "-usd") in Hs.
      unfold w1, world_after.
      rewrite (Hs Hf1 Hu1 (truthy_prop _ _ Hp1))
        by (rewrite (kept_prices_single _ _ Hp1); discriminate).
      rewrite (history_result_roundtrip _ _ _ Hj1). cbn [fst snd].
      unfold history_result. rewrite (kept_prices_single _ _ Hp1). reflexivity. }
    assert (Hf2' : fresh_entry w1 (date ++ "-eur") t2 = None).
    { unfold fresh_entry in *. rewrite E1. cbn [db set_db].
      rewrite lookup_insert_ne by exact Hne. exact Hf2. }
    assert (E2 : w2 = set_db w1 (<[date ++ "-eur" :=
                   Row (JObj [("date", JStr date);
                              ("prices", JObj [("eur", prop (allPrices_of data2) "eur")])]) t2']>
                   (db w1))).
    { pose proof (history_saved date (Some (QStr "eur")) t2 up2 data2 t2' w1 Hd) as Hs.
      cbv zeta in Hs.
      change (currenciesToReturn (currencyParam (Some (QStr "eur")))) with ["eur"] in Hs.
      change (cacheKey date ["eur"]) with (date ++ "-eur") in Hs.
      unfold w2, world_after.
      rewrite (Hs Hf2' Hu2 (truthy_prop _ _ Hp2))
        by (rewrite (kept_prices_single _ _ Hp2); discriminate).
      rewrite (history_result_roundtrip _ _ _ Hj2). cbn [fst snd].
      unfold history_result. rewrite (kept_prices_single _ _ Hp2). reflexivity. }
    split; [exact Hne|]. rewrite E2. cbn [db set_db]. split.
    + rewrite lookup_insert_ne by congruence. rewrite E1. cbn [db set_db].
      apply lookup_insert_eq.
    + apply lookup_insert_eq.
Qed.

Lemma composite_key_witness :
  let data := JObj [("market_data",
                     JObj [("current_price",
                            JObj [("usd", JNum (65000 # 1)); ("eur", JNum (60000 # 1))])])] in
  let up := FetchResolved (Response true 200 "OK" (Some data)) in
  let w1 := world_after (btc_price_history "19-05-2025" (Some (QStr "usd")) 1000 up 1001)
              init_world in
  let w2 := world_after (btc_price_history "19-05-2025" (Some (QStr "eur")) 2000 up 2001) w1 in
  ((∀ k, In (EvSelect k) [EvSelect "19-05-2025-usd"; EvFetch (CoinHistory "19-05-2025");
                          EvInsertOrReplace "19-05-2025-usd"] ∨
         In (EvInsertOrReplace k) [EvSelect "19-05-2025-usd"; EvFetch (CoinHistory "19-05-2025");
                                   EvInsertOrReplace "19-05-2025-usd"] →
         k = "19-05-2025" ++ "-" ++ join "," ["usd"]) ∧
   (∀ k, k ≠ "19-05-2025" ++ "-" ++ join "," ["usd"] → db w1 !! k = db init_world !! k))
  ∧
  ("19-05-2025" ++ "-usd" ≠ "19-05-2025" ++ "-eur" ∧
   db w2 !! ("19-05-2025" ++ "-usd") =
     Some (Row (JObj [("date", JStr "19-05-2025");
                      ("prices", JObj [("usd", prop (allPrices_of data) "usd")])]) 1001) ∧
   db w2 !! ("19-05-2025" ++ "-eur") =
     Some (Row (JObj [("date", JStr "19-05-2025");
                      ("prices", JObj [("eur", prop (allPrices_of data) "eur")])]) 2001)).
Proof.
  intros data up w1 w2. split.
  - apply (proj1 (composite_key "19-05-2025") (Some (QStr "usd")) 1000 up 1001 init_world
             (Http 200 (JObj [("date", JStr "19-05-2025");
                              ("prices", JObj [("usd", JNum (65000 # 1))])]))
             w1
             [EvSelect "19-05-2025-usd"; EvFetch (CoinHistory "19-05-2025");
              EvInsertOrReplace "19-05-2025-usd"]).
    vm_compute. reflexivity.
  - apply (proj2 (proj2 (composite_key "19-05-2025"))
             init_world 1000 up data 1001 2000 up data 2001).
    + apply date_regex_spec. vm_compute. reflexivity.
    + vm_compute. reflexivity.
    + vm_compute. reflexivity.
    + exists (Response true 200 "OK" (Some data)). repeat split.
    + vm_compute. reflexivity.
    + vm_compute. reflexivity.
    + exists (Response true 200 "OK" (Some data)). repeat split.
    + vm_compute. reflexivity.
    + vm_compute. reflexivity.
Defined.

(** C1. In a state of the process, a history request whose composite key is
    in the store with an entry younger than 24 hours is answered with the
    stored payload as it is, with no upstream call and no change of state.
    Hence, when a request misses the store and is answered 200 from the
    upstream service, an identical request made less than 24 hours after
    the write gets the same response with no upstream call: one upstream
    call for the two. *)
Theorem history_cache_hit (date : string) (currency : option qparam) :
  let key := cacheKey date (currenciesToReturn (currencyParam currency)) in
  (∀ w r now_read up now_write,
     reachable w → dd_mm_yyyy date →
     db w !! key = Some r → now_read - timestamp r < oneDayMs →
     run (btc_price_history date currency now_read up now_write) w =
       (Val (Http 200 (price_data r)), (w, [EvSelect key])))
  ∧
  (∀ w t1 up1 data t1' t2 up2 t2' resp1,
     upstream_ok up1 data → is_json data = true →
     fresh_entry w key t1 = None →
     let first := run (btc_price_history date currency t1 up1 t1') w in
     first.1 = Val resp1 → status resp1 = 200 →
     t2 - t1' < oneDayMs →
     let second := run (btc_price_history date currency t2 up2 t2') first.2.1 in
     upstream_calls first.2.2 = 1%nat ∧
     second = (Val resp1, (first.2.1, [EvSelect key])) ∧
     upstream_calls (first.2.2 ++ second.2.2) = 1%nat).
Proof.
  intros key. split.
  - intros w r now_read up now_write Hw Hd Hr Hage.
    apply date_regex_spec in Hd.
    apply history_hit; [exact Hd|apply fresh_entry_lookup; auto|].
    destruct (reachable_ok w Hw) as [_ Hrows]. eapply Hrows. exact Hr.
  - intros w t1 up1 data t1' t2 up2 t2' resp1 Hup Hj Hmiss first H1 H200 Hwin second.
    destruct (regex_test date_regex date) eqn:Hre.
    2:{ unfold first in H1. rewrite (history_invalid _ _ _ _ _ _ Hre) in H1.
        injection H1 as <-. discriminate. }
    assert (Hfirst : first =
              (Val (Http 200 (history_result date (allPrices_of data)
                                (currenciesToReturn (currencyParam currency)))),
               (set_db w (<[key := Row (history_result date (allPrices_of data)
                                          (currenciesToReturn (currencyParam currency))) t1']>
                            (db w)),
                [EvSelect key; EvFetch (CoinHistory date); EvInsertOrReplace key]))).
    { unfold first in *.
      rewrite (history_miss _ _ _ _ _ _ Hre) in * by (fold key; rewrite Hmiss; reflexivity).
      destruct Hup as (r & -> & Hok & Hbody). rewrite Hok, Hbody in *.
      destruct (truthy (allPrices_of data));
        [|injection H1 as <-; discriminate].
      destruct (kept_prices (allPrices_of data) _ []) eqn:Ek;
        [injection H1 as <-; discriminate|].
      rewrite (history_result_roundtrip _ _ _ Hj). reflexivity. }
    rewrite Hfirst in H1. injection H1 as <-.
    assert (Hsecond : second = (Val (Http 200 (history_result date (allPrices_of data)
                                (currenciesToReturn (currencyParam currency)))),
                                (first.2.1, [EvSelect key]))).
    { unfold second. rewrite Hfirst. cbn [fst snd].
      apply (history_hit date currency t2 up2 t2' _
               (Row (history_result date (allPrices_of data)
                       (currenciesToReturn (currencyParam currency))) t1') Hre).
      - apply fresh_entry_lookup. cbn [db set_db timestamp].
        split; [apply lookup_insert_eq|exact Hwin].
      - reflexivity. }
    rewrite Hsecond. rewrite Hfirst. split_and!; reflexivity.
Qed.

Lemma history_cache_hit_witness :
  let data := JObj [("market_data",
                     JObj [("current_price",
                            JObj [("usd", JNum (65000 # 1)); ("eur", JNum (60000 # 1))])])] in
  let up := FetchResolved (Response true 200 "OK" (Some data)) in
  let result := JObj [("date", JStr "19-05-2025"); ("prices", JObj [("usd", JNum (65000 # 1))])] in
  let w1 := world_after (btc_price_history "19-05-2025" (Some (QStr "usd")) 1000 up 1001)
              init_world in
  run (btc_price_history "19-05-2025" (Some (QStr "usd")) 5000 FetchRejected 5001) w1 =
    (Val (Http 200 result), (w1, [EvSelect "19-05-2025-usd"]))
  ∧
  (upstream_calls (run (btc_price_history "19-05-2025" (Some (QStr "usd")) 1000 up 1001)
                     init_world).2.2 = 1%nat ∧
   run (btc_price_history "19-05-2025" (Some (QStr "usd")) 5000 FetchRejected 5001) w1 =
     (Val (Http 200 result), (w1, [EvSelect "19-05-2025-usd"])) ∧
   upstream_calls
     ((run (btc_price_history "19-05-2025" (Some (QStr "usd")) 1000 up 1001) init_world).2.2 ++
      (run (btc_price_history "19-05-2025" (Some (QStr "usd")) 5000 FetchRejected 5001) w1).2.2)
     = 1%nat).
Proof.
  intros data up result w1. split.
  - apply (proj1 (history_cache_hit "19-05-2025" (Some (QStr "usd")))
             w1 (Row result 1001) 5000 FetchRejected 5001).
    + apply reach_history, reach_init.
    + apply date_regex_spec. vm_compute. reflexivity.
    + vm_compute. reflexivity.
    + vm_compute. reflexivity.
  - apply (proj2 (history_cache_hit "19-05-2025" (Some (QStr "usd")))
             init_world 1000 up data 1001 5000 FetchRejected 5001 (Http 200 result)).
    + exists (Response true 200 "OK" (Some data)). repeat split.
    + vm_compute. reflexivity.
    + vm_compute. reflexivity.
    + vm_compute. reflexivity.
    + reflexivity.
    + vm_compute. reflexivity.
Defined.

(** C2. In a state of the process, a current-price request made while a
    cached payload exists and less than 5 minutes after it was fetched is
    answered with that payload, with no upstream call and the state
    untouched; a request made more than 5 minutes after the last
    successful fetch makes a fresh upstream call. *)
Theorem live_cache_window (w : world) (now : Z) (up : fetch_result) :
  reachable w →
  (cachedBtcData w ≠ JNull → now - lastFetchTime w < CACHE_DURATION_MS →
     run (btc_data now up) w = (Val (Http 200 (cachedBtcData w)), (w, [])))
  ∧
  (now - lastFetchTime w > CACHE_DURATION_MS →
     ∃ resp w',
       run (btc_data now up) w =
         (Val resp, (w', [EvFetch (SimplePrice "usd,aud,gbp,eur,cad")]))).
Proof.
  intros Hw. destruct (reachable_ok w Hw) as [Hc _]. split.
  - intros Hn Hage. apply btc_data_hit. unfold live_cache_valid.
    destruct Hc as [Hc|Hc]; [contradiction|]. rewrite Hc. apply Z.ltb_lt in Hage.
    rewrite Hage. reflexivity.
  - intros Hage. rewrite btc_data_refresh.
    + cbv zeta. destruct up as [|r]; [eauto|].
      destruct (resp_ok r); [|eauto].
      destruct (resp_json r) as [data|]; [|eauto].
      destruct (has_bitcoin data); eauto.
    + unfold live_cache_valid. apply andb_false_iff. right. apply Z.ltb_ge. lia.
Qed.

Lemma live_cache_window_witness :
  let data := JObj [("bitcoin", JObj [("usd", JNum (65000 # 1))])] in
  let up := FetchResolved (Response true 200 "OK" (Some data)) in
  let w1 := world_after (btc_data 1000000 up) init_world in
  run (btc_data 1200000 FetchRejected) w1 = (Val (Http 200 (cachedBtcData w1)), (w1, []))
  ∧
  ∃ resp w',
    run (btc_data 1400000 FetchRejected) w1 =
      (Val resp, (w', [EvFetch (SimplePrice "usd,aud,gbp,eur,cad")])).
Proof.
  intros data up w1. split.
  - apply (proj1 (live_cache_window w1 1200000 FetchRejected
                    (reach_btc_data _ 1000000 up reach_init))).
    + vm_compute. discriminate.
    + vm_compute. reflexivity.
  - apply (proj2 (live_cache_window w1 1400000 FetchRejected
                    (reach_btc_data _ 1000000 up reach_init))).
    vm_compute. reflexivity.
Defined.

Lemma set_field_not_nil k v fields : set_field k v fields ≠ [].
Proof. destruct fields as [|[k' x] fs]; cbn; [discriminate|]. destruct (String.eqb k k'); discriminate. Qed.

Lemma assoc_set_field k c v fields :
  assoc k (set_field c v fields) = if String.eqb k c then Some v else assoc k fields.
Proof.
  induction fields as [|[k' x] fs IH]; cbn.
  - destruct (String.eqb k c); reflexivity.
  - destruct (String.eqb c k') eqn:E; cbn.
    + apply String.eqb_eq in E. subst k'. destruct (String.eqb k c); reflexivity.
    + rewrite IH. destruct (String.eqb k c) eqn:E'; [|reflexivity].
      apply String.eqb_eq in E'. subst k. rewrite E. reflexivity.
Qed.

Lemma keys_assoc k fields : In k (keys fields) ↔ is_Some (assoc k fields).
Proof.
  induction fields as [|[k' x] fs IH]; cbn.
  - split; [intros []|intros [? [=]]].
  - destruct (String.eqb k k') eqn:E.
    + apply String.eqb_eq in E. subst. split; eauto.
    + apply String.eqb_neq in E. rewrite <- IH. split; [intros [H|H]; [cbn in H; congruence|exact H]|auto].
Qed.

Lemma kept_prices_cons allPrices c cs acc :
  kept_prices allPrices (c :: cs) acc =
  kept_prices allPrices cs
    (if truthy (prop allPrices c) then set_field c (prop allPrices c) acc else acc).
Proof. reflexivity. Qed.

Lemma kept_prices_nil allPrices cs acc :
  kept_prices allPrices cs acc = [] ↔
  acc = [] ∧ Forall (λ c, truthy (prop allPrices c) = false) cs.
Proof.
  revert acc. induction cs as [|c cs IH]; intros acc.
  - cbn [kept_prices fold_left].
    split; [intros ->; split; [reflexivity|constructor]|intros [-> _]; reflexivity].
  - rewrite kept_prices_cons, IH.
    destruct (truthy (prop allPrices c)) eqn:Ht.
    + split; [intros [H _]; destruct (set_field_not_nil _ _ _ H)|].
      intros [_ H]. inversion H; congruence.
    + split; [intros [-> H]; split; [reflexivity|constructor; assumption]|].
      intros [-> H]. inversion H; auto.
Qed.

(** What the filtering loop leaves under each key. *)
Lemma kept_prices_assoc allPrices k cs acc :
  assoc k (kept_prices allPrices cs acc) =
  if existsb (String.eqb k) cs && truthy (prop allPrices k)
  then Some (prop allPrices k) else assoc k acc.
Proof.
  revert acc. induction cs as [|c cs IH]; intros acc.
  - reflexivity.
  - rewrite kept_prices_cons, IH. cbn [existsb].
    destruct (String.eqb k c) eqn:Ekc; cbn [orb].
    + apply String.eqb_eq in Ekc. subst c.
      destruct (truthy (prop allPrices k)) eqn:T.
      * rewrite !andb_true_r. destruct (existsb _ cs); [reflexivity|].
        rewrite assoc_set_field, String.eqb_refl. reflexivity.
      * rewrite !andb_false_r. reflexivity.
    + destruct (existsb _ cs && truthy _); [reflexivity|].
      destruct (truthy (prop allPrices c)); [|reflexivity].
      rewrite assoc_set_field, Ekc. reflexivity.
Qed.

Lemma kept_prices_keys allPrices cs c :
  In c (keys (kept_prices allPrices cs [])) ↔ In c cs ∧ truthy (prop allPrices c) = true.
Proof.
  rewrite keys_assoc, kept_prices_assoc. cbn [assoc].
  destruct (existsb (String.eqb c) cs) eqn:E; cbn [andb].
  - apply includes_In in E. destruct (truthy (prop allPrices c)); split.
    + auto.
    + eauto.
    + intros [? [=]].
    + intros [_ [=]].
  - split; [intros [? [=]]|]. intros [Hin _]. apply includes_In in Hin.
    unfold includes in Hin. congruence.
Qed.

(** C7, as the code has it.  On a miss with a successful upstream response,
    the request fails with status 400 exactly when
    [market_data.current_price] is missing or falsy, or when no effective
    currency has a truthy value in it; the state is then untouched.
    Otherwise the result, date and the effective currencies with a truthy
    price, is saved under the composite key and returned. *)
Theorem no_data_exactly (date : string) (currency : option qparam)
    (now_read : Z) (up : fetch_result) (data : jsval) (now_write : Z) (w : world) :
  let cs := currenciesToReturn (currencyParam currency) in
  let key := cacheKey date cs in
  let allPrices := allPrices_of data in
  let no_data :=
    truthy allPrices = false ∨ Forall (λ c, truthy (prop allPrices c) = false) cs in
  let result := JObj [("date", JStr date); ("prices", JObj (kept_prices allPrices cs []))] in
  dd_mm_yyyy date →
  fresh_entry w key now_read = None →
  upstream_ok up data →
  ∃ resp w' tr,
    run (btc_price_history date currency now_read up now_write) w = (Val resp, (w', tr)) ∧
    (status resp = 400 ↔ no_data) ∧
    (no_data → w' = w ∧ tr = [EvSelect key; EvFetch (CoinHistory date)]) ∧
    (¬ no_data →
       resp = Http 200 result ∧
       w' = set_db w (<[key := Row (JSON_roundtrip result) now_write]> (db w)) ∧
       tr = [EvSelect key; EvFetch (CoinHistory date); EvInsertOrReplace key] ∧
       (is_json data = true → JSON_roundtrip result = result)).
Proof.
  intros cs key allPrices no_data result Hd Hmiss (r & -> & Hok & Hbody).
  apply date_regex_spec in Hd.
  rewrite (history_miss _ _ _ _ _ _ Hd) by (fold cs key; rewrite Hmiss; reflexivity).
  rewrite Hok, Hbody. fold cs key allPrices.
  destruct (truthy allPrices) eqn:Ht.
  - destruct (kept_prices allPrices cs []) as [|p fp] eqn:Ek.
    + assert (Hn : no_data) by (right; apply (kept_prices_nil allPrices cs []); auto).
      do 3 eexists. split; [reflexivity|]. split_and!; [tauto|auto|tauto].
    + assert (Hn : ¬ no_data).
      { intros [H|H]; [congruence|].
        assert (kept_prices allPrices cs [] = []) by (apply kept_prices_nil; auto).
        congruence. }
      do 3 eexists. split; [reflexivity|]. split_and!.
      * cbn. split; [discriminate|tauto].
      * tauto.
      * intros _. unfold history_result, result. rewrite Ek. split_and!; try reflexivity.
        intros Hj. rewrite <- Ek. apply (history_result_roundtrip date data cs Hj).
  - assert (Hn : no_data) by (left; reflexivity).
    do 3 eexists. split; [reflexivity|]. split_and!; [tauto|auto|tauto].
Qed.

Lemma no_data_exactly_witness :
  let data := JObj [("market_data",
                     JObj [("current_price",
                            JObj [("usd", JNum (65000 # 1)); ("eur", JNum (60000 # 1))])])] in
  let up := FetchResolved (Response true 200 "OK" (Some data)) in
  ∃ resp w' tr,
    run (btc_price_history "19-05-2025" (Some (QStr "usd")) 1000 up 1001) init_world =
      (Val resp, (w', tr)) ∧
    resp = Http 200 (JObj [("date", JStr "19-05-2025");
                           ("prices", JObj [("usd", JNum (65000 # 1))])]) ∧
    db w' !! "19-05-2025-usd" = Some (Row (body resp) 1001).
Proof.
  intros data up.
  destruct (no_data_exactly "19-05-2025" (Some (QStr "usd")) 1000 up data 1001 init_world)
    as (resp & w' & tr & Hrun & _ & _ & Hsaved).
  - apply date_regex_spec. vm_compute. reflexivity.
  - vm_compute. reflexivity.
  - exists (Response true 200 "OK" (Some data)). repeat split.
  - exists resp, w', tr. split; [exact Hrun|].
    destruct Hsaved as (-> & -> & _ & _).
    + intros [H|H]; [vm_compute in H; discriminate|].
      inversion H as [|? ? H1 _]. vm_compute in H1. discriminate.
    + split; [reflexivity|]. vm_compute. reflexivity.
Defined.

(** The reading of C7 that fails: a price-data section that is there and
    holds the requested currency, with price 0.  The filter by presence
    keeps usd, yet the request is answered 400 and nothing is saved. *)
Lemma no_data_presence_counterexample :
  let data := JObj [("market_data", JObj [("current_price", JObj [("usd", JNum 0)])])] in
  let up := FetchResolved (Response true 200 "OK" (Some data)) in
  allPrices_of data = JObj [("usd", JNum 0)] ∧
  present_currencies (allPrices_of data)
    (currenciesToReturn (currencyParam (Some (QStr "usd")))) = ["usd"] ∧
  fresh_entry init_world "19-05-2025-usd" 1000 = None ∧
  run (btc_price_history "19-05-2025" (Some (QStr "usd")) 1000 up 1001) init_world =
    (Val (Http 400 (JObj [("error", JStr "No supported currencies found for this date")])),
     (init_world, [EvSelect "19-05-2025-usd"; EvFetch (CoinHistory "19-05-2025")])).
Proof. vm_compute. repeat split. Qed.

(** C10. The filter keeps a requested currency only if its upstream price
    is truthy.  On a miss with a successful upstream response that has a
    price-data section: a currency is in the returned prices exactly when
    it is an effective currency with a truthy price, and it carries that
    price; a currency whose price is 0 or null is left out; and when every
    effective currency has a falsy price the request is answered 400 "No
    supported currencies found for this date" with nothing saved. *)
Theorem falsy_prices_omitted (date : string) (currency : option qparam)
    (now_read : Z) (up : fetch_result) (data : jsval) (now_write : Z) (w : world) :
  let cs := currenciesToReturn (currencyParam currency) in
  let key := cacheKey date cs in
  let allPrices := allPrices_of data in
  dd_mm_yyyy date →
  fresh_entry w key now_read = None →
  upstream_ok up data →
  truthy allPrices = true →
  ∃ resp w' tr,
    run (btc_price_history date currency now_read up now_write) w = (Val resp, (w', tr)) ∧
    (Forall (λ c, truthy (prop allPrices c) = false) cs →
       resp = Http 400 (JObj [("error", JStr "No supported currencies found for this date")]) ∧
       w' = w) ∧
    (Exists (λ c, truthy (prop allPrices c) = true) cs →
       ∃ prices,
         resp = Http 200 (JObj [("date", JStr date); ("prices", JObj prices)]) ∧
         (∀ c, In c (keys prices) ↔ In c cs ∧ truthy (prop allPrices c) = true) ∧
         (∀ c, In c (keys prices) → assoc c prices = Some (prop allPrices c)) ∧
         (∀ c q, prop allPrices c = JNull ∨ (prop allPrices c = JNum q ∧ (q == 0)%Q) →
                 ¬ In c (keys prices))).
Proof.
  intros cs key allPrices Hd Hmiss (r & -> & Hok & Hbody) Ht.
  apply date_regex_spec in Hd.
  rewrite (history_miss _ _ _ _ _ _ Hd) by (fold cs key; rewrite Hmiss; reflexivity).
  rewrite Hok, Hbody. fold cs key allPrices. rewrite Ht.
  destruct (kept_prices allPrices cs []) as [|p fp] eqn:Ek.
  - apply kept_prices_nil in Ek as [_ Hall].
    do 3 eexists. split; [reflexivity|]. split; [auto|].
    intros Hex. apply Exists_exists in Hex as (c & Hin & Hc).
    rewrite Forall_forall in Hall. rewrite (Hall c Hin) in Hc. discriminate.
  - do 3 eexists. split; [reflexivity|]. split.
    + intros Hall.
      assert (kept_prices allPrices cs [] = []) by (apply kept_prices_nil; auto). congruence.
    + intros _. exists (kept_prices allPrices cs []). unfold history_result.
      rewrite Ek. split; [reflexivity|]. rewrite <- Ek.
      assert (Hkeys := kept_prices_keys allPrices cs).
      split_and!.
      * exact Hkeys.
      * intros c Hc. apply Hkeys in Hc as [Hin Hc].
        rewrite kept_prices_assoc. apply includes_In in Hin. unfold includes in Hin.
        rewrite Hin, Hc. reflexivity.
      * intros c q Hz Hc. apply Hkeys in Hc as [_ Hc].
        destruct Hz as [Hz|[Hz Hq]]; rewrite Hz in Hc; cbn in Hc; [discriminate|].
        apply Qeq_bool_iff in Hq. rewrite Hq in Hc. discriminate.
Qed.

Lemma falsy_prices_omitted_witness :
  let data := JObj [("market_data",
                     JObj [("current_price",
                            JObj [("usd", JNum 0); ("eur", JNull); ("gbp", JNum (51000 # 1))])])] in
  let up := FetchResolved (Response true 200 "OK" (Some data)) in
  ∃ resp w' tr,
    run (btc_price_history "19-05-2025" None 1000 up 1001) init_world = (Val resp, (w', tr)) ∧
    ∃ prices,
      resp = Http 200 (JObj [("date", JStr "19-05-2025"); ("prices", JObj prices)]) ∧
      ¬ In "usd" (keys prices) ∧ ¬ In "eur" (keys prices) ∧ In "gbp" (keys prices).
Proof.
  intros data up.
  destruct (falsy_prices_omitted "19-05-2025" None 1000 up data 1001 init_world)
    as (resp & w' & tr & Hrun & _ & Hsome).
  - apply date_regex_spec. vm_compute. reflexivity.
  - vm_compute. reflexivity.
  - exists (Response true 200 "OK" (Some data)). repeat split.
  - vm_compute. reflexivity.
  - exists resp, w', tr. split; [exact Hrun|].
    destruct Hsome as (prices & Hresp & Hkeys & _ & Hzero).
    + apply Exists_exists. exists "gbp". split; [do 4 right; left; reflexivity|vm_compute; reflexivity].
    + exists prices. split; [exact Hresp|]. split_and!.
      * apply (Hzero "usd" 0%Q). right. split; [vm_compute; reflexivity|reflexivity].
      * apply (Hzero "eur" 0%Q). left. vm_compute. reflexivity.
      * apply Hkeys. split; [do 4 right; left; reflexivity|vm_compute; reflexivity].
Defined.

Lemma live_payload_assoc data c :
  In c live_currencies →
  assoc (toUpperCase c) (live_payload data live_currencies []) =
  Some (live_entry (prop data "bitcoin") c).
Proof.
  intros [<-|[<-|[<-|[<-|[<-|[]]]]]]; reflexivity.
Qed.

(** C8, as the code has it.  When the cache cannot answer, the current-price
    operation fails with status 500 "Failed to fetch BTC data" if the
    upstream call fails, answers with a non-success status, sends a body
    that is not JSON, or sends a payload with no [bitcoin] member: one and
    the same error.  With a [bitcoin] member the operation succeeds, and
    each of the three fields of each currency is whatever [bitcoin] holds
    under the field's name, [undefined] when the field is missing. *)
Theorem live_price_errors (w : world) (now : Z) (up : fetch_result) :
  live_cache_valid w now = false →
  let failed :=
    (Val (Http 500 (JObj [("error", JStr "Failed to fetch BTC data")])),
     (w, [EvFetch (SimplePrice "usd,aud,gbp,eur,cad")])) in
  (upstream_failed up → run (btc_data now up) w = failed)
  ∧
  (∀ data, upstream_ok up data → has_bitcoin data = false →
           run (btc_data now up) w = failed)
  ∧
  (∀ data, upstream_ok up data → has_bitcoin data = true →
     ∃ btcData,
       run (btc_data now up) w =
         (Val (Http 200 (JObj btcData)),
          ({| db := db w; cachedBtcData := JObj btcData; lastFetchTime := now |},
           [EvFetch (SimplePrice "usd,aud,gbp,eur,cad")])) ∧
       ∀ c, In c live_currencies →
         let entry := prop (JObj btcData) (toUpperCase c) in
         let bitcoin := prop data "bitcoin" in
         prop entry "price" = prop bitcoin c ∧
         prop entry "percentChange24h" = prop bitcoin (c ++ "_24h_change") ∧
         prop entry "marketCap" = prop bitcoin (c ++ "_market_cap")).
Proof.
  intros Hc failed. rewrite (btc_data_refresh _ _ _ Hc). cbv zeta. split_and!.
  - intros [->|(r & -> & [H|H])]; [reflexivity|rewrite H; reflexivity|].
    rewrite H. destruct (resp_ok r); reflexivity.
  - intros data (r & -> & Hok & Hbody) Hb. rewrite Hok, Hbody, Hb. reflexivity.
  - intros data (r & -> & Hok & Hbody) Hb. rewrite Hok, Hbody, Hb.
    eexists. split; [reflexivity|]. intros c Hin. cbn [prop].
    rewrite (live_payload_assoc data c Hin). split_and!; reflexivity.
Qed.

Lemma live_price_errors_witness :
  let data := JObj [("bitcoin", JObj [("usd", JNum (65000 # 1))])] in
  run (btc_data 1000 (FetchResolved (Response false 429 "Too Many Requests" None))) init_world =
    (Val (Http 500 (JObj [("error", JStr "Failed to fetch BTC data")])),
     (init_world, [EvFetch (SimplePrice "usd,aud,gbp,eur,cad")]))
  ∧
  run (btc_data 1000 (FetchResolved (Response true 200 "OK" (Some (JObj []))))) init_world =
    (Val (Http 500 (JObj [("error", JStr "Failed to fetch BTC data")])),
     (init_world, [EvFetch (SimplePrice "usd,aud,gbp,eur,cad")]))
  ∧
  ∃ btcData,
    run (btc_data 1000 (FetchResolved (Response true 200 "OK" (Some data)))) init_world =
      (Val (Http 200 (JObj btcData)),
       ({| db := ∅; cachedBtcData := JObj btcData; lastFetchTime := 1000 |},
        [EvFetch (SimplePrice "usd,aud,gbp,eur,cad")])) ∧
    ∀ c, In c live_currencies →
      let entry := prop (JObj btcData) (toUpperCase c) in
      let bitcoin := prop data "bitcoin" in
      prop entry "price" = prop bitcoin c ∧
      prop entry "percentChange24h" = prop bitcoin (c ++ "_24h_change") ∧
      prop entry "marketCap" = prop bitcoin (c ++ "_market_cap").
Proof.
  intros data. split_and!.
  - apply (proj1 (live_price_errors init_world 1000
                    (FetchResolved (Response false 429 "Too Many Requests" None)) eq_refl)).
    right. eexists. split; [reflexivity|]. left. reflexivity.
  - apply (proj1 (proj2 (live_price_errors init_world 1000
                    (FetchResolved (Response true 200 "OK" (Some (JObj [])))) eq_refl))
             (JObj [])).
    + eexists. repeat split.
    + reflexivity.
  - apply (proj2 (proj2 (live_price_errors init_world 1000
                    (FetchResolved (Response true 200 "OK" (Some data))) eq_refl))
             data).
    + eexists. repeat split.
    + reflexivity.
Defined.

(** The reading of C8 that fails: the payload lacks every field of aud (and
    of the other currencies but usd); the request is answered 200, the
    missing fields are [undefined] in the response, and the payload is
    cached. *)
Lemma missing_field_counterexample :
  let data := JObj [("bitcoin", JObj [("usd", JNum (65000 # 1))])] in
  let up := FetchResolved (Response true 200 "OK" (Some data)) in
  prop (prop data "bitcoin") "aud" = JUndef ∧
  ∃ btcData,
    run (btc_data 1000 up) init_world =
      (Val (Http 200 btcData),
       ({| db := ∅; cachedBtcData := btcData; lastFetchTime := 1000 |},
        [EvFetch (SimplePrice "usd,aud,gbp,eur,cad")])) ∧
    prop btcData "AUD" =
      JObj [("price", JUndef); ("percentChange24h", JUndef); ("marketCap", JUndef)].
Proof. split; [reflexivity|]. eexists. split; vm_compute; reflexivity. Qed.

(** C9. When a refresh of the current price is aborted, because the
    upstream call fails, answers with a non-success status, sends a body
    that is not JSON or a payload with no [bitcoin] member, the request is
    answered 500 with the error message, not with the stale payload, and
    the cached payload and its fetch time are as they were.  More
    generally, a request that is not answered 200 leaves the state
    untouched. *)
Theorem failed_refresh_keeps_state (w : world) (now : Z) (up : fetch_result) :
  (live_cache_valid w now = false →
   upstream_failed up ∨ (∃ data, upstream_ok up data ∧ has_bitcoin data = false) →
   run (btc_data now up) w =
     (Val (Http 500 (JObj [("error", JStr "Failed to fetch BTC data")])),
      (w, [EvFetch (SimplePrice "usd,aud,gbp,eur,cad")])))
  ∧
  (∀ resp w' tr,
     run (btc_data now up) w = (Val resp, (w', tr)) → status resp ≠ 200 → w' = w).
Proof.
  split.
  - intros Hc H. rewrite (btc_data_refresh _ _ _ Hc). cbv zeta.
    destruct H as [[->|(r & -> & [H|H])]|(data & (r & -> & Hok & Hbody) & Hb)].
    + reflexivity.
    + rewrite H. reflexivity.
    + rewrite H. destruct (resp_ok r); reflexivity.
    + rewrite Hok, Hbody, Hb. reflexivity.
  - intros resp w' tr Hrun Hs.
    destruct (live_cache_valid w now) eqn:Hc.
    + rewrite (btc_data_hit _ _ _ Hc) in Hrun. congruence.
    + rewrite (btc_data_refresh _ _ _ Hc) in Hrun. cbv zeta in Hrun.
      destruct up as [|r]; [congruence|].
      destruct (resp_ok r); [|congruence].
      destruct (resp_json r) as [data|]; [|congruence].
      destruct (has_bitcoin data); [|congruence].
      injection Hrun as <- <- <-. cbn in Hs. congruence.
Qed.

Lemma failed_refresh_keeps_state_witness :
  let data := JObj [("bitcoin", JObj [("usd", JNum (65000 # 1))])] in
  let w1 := world_after (btc_data 1000000 (FetchResolved (Response true 200 "OK" (Some data))))
              init_world in
  let down := FetchResolved (Response false 503 "Service Unavailable" None) in
  run (btc_data 1400000 down) w1 =
    (Val (Http 500 (JObj [("error", JStr "Failed to fetch BTC data")])),
     (w1, [EvFetch (SimplePrice "usd,aud,gbp,eur,cad")]))
  ∧ world_after (btc_data 1400000 down) w1 = w1.
Proof.
  intros data w1 down. split.
  - apply (proj1 (failed_refresh_keeps_state w1 1400000 down)).
    + vm_compute. reflexivity.
    + left. right. eexists. split; [reflexivity|]. left. reflexivity.
  - apply (proj2 (failed_refresh_keeps_state w1 1400000 down)
             (Http 500 (JObj [("error", JStr "Failed to fetch BTC data")]))
             (world_after (btc_data 1400000 down) w1)
             [EvFetch (SimplePrice "usd,aud,gbp,eur,cad")]).
    + vm_compute. reflexivity.
    + cbn. discriminate.
Defined.

(** ** Further properties of the handlers and the storage helpers *)

Lemma set_db_same w : set_db w (db w) = w.
Proof. destruct w; reflexivity. Qed.

(** A history request reads the state only through the lookup of its key,
    and changes it only by a write under that key. *)
Lemma history_frame date q t up t' w1 :
  let key := cacheKey date (currenciesToReturn (currencyParam q)) in
  ∃ resp ins tr,
    (upstream_calls tr ≤ 1)%nat ∧
    (status resp = 200 ∨ status resp = 400 ∨ status resp = 500) ∧
    ((ins = None ∧ ∀ k, ¬ In (EvInsertOrReplace k) tr) ∨
     (status resp = 200 ∧ ins = Some (Row (JSON_roundtrip (body resp)) t') ∧
      tr = [EvSelect key; EvFetch (CoinHistory date); EvInsertOrReplace key])) ∧
    ∀ w2, fresh_entry w2 key t = fresh_entry w1 key t →
          run (btc_price_history date q t up t') w2 =
            (Val resp, (apply_insert key ins w2, tr)).
Proof.
  intros key.
  assert (Hnone : ∀ resp tr,
            (status resp = 200 ∨ status resp = 400 ∨ status resp = 500) →
            (upstream_calls tr ≤ 1)%nat →
            (∀ k, ¬ In (EvInsertOrReplace k) tr) →
            (∀ w2, fresh_entry w2 key t = fresh_entry w1 key t →
               run (btc_price_history date q t up t') w2 = (Val resp, (w2, tr))) →
            ∃ resp ins tr,
              (upstream_calls tr ≤ 1)%nat ∧
              (status resp = 200 ∨ status resp = 400 ∨ status resp = 500) ∧
              ((ins = None ∧ ∀ k, ¬ In (EvInsertOrReplace k) tr) ∨
               (status resp = 200 ∧ ins = Some (Row (JSON_roundtrip (body resp)) t') ∧
                tr = [EvSelect key; EvFetch (CoinHistory date); EvInsertOrReplace key])) ∧
              ∀ w2, fresh_entry w2 key t = fresh_entry w1 key t →
                    run (btc_price_history date q t up t') w2 =
                      (Val resp, (apply_insert key ins w2, tr))).
  { intros resp tr Hs Hu Hi Hrun. exists resp, None, tr. auto 6. }
  assert (Hsel : ∀ k, ¬ In (EvInsertOrReplace k) [EvSelect key]).
  { intros k [H|[]]. discriminate. }
  assert (Hfet : ∀ k, ¬ In (EvInsertOrReplace k) [EvSelect key; EvFetch (CoinHistory date)]).
  { intros k [H|[H|[]]]; discriminate. }
  destruct (regex_test date_regex date) eqn:Hre.
  2:{ apply (Hnone invalid_date []); [cbn; auto|cbn; lia|intros k []|].
      intros w2 _. apply history_invalid. exact Hre. }
  destruct (truthy (from_option price_data JNull (fresh_entry w1 key t))) eqn:Ht.
  - destruct (fresh_entry w1 key t) as [r|] eqn:Hf; [|discriminate].
    apply (Hnone (Http 200 (price_data r)) [EvSelect key]); [cbn; auto|cbn; lia|exact Hsel|].
    intros w2 E. apply history_hit; assumption.
  - assert (Hm : ∀ w2, fresh_entry w2 key t = fresh_entry w1 key t →
                       truthy (from_option price_data JNull (fresh_entry w2 key t)) = false).
    { intros w2 ->. exact Ht. }
    destruct up as [|r].
    { apply (Hnone history_failed [EvSelect key; EvFetch (CoinHistory date)]);
        [cbn; auto|cbn; lia|exact Hfet|].
      intros w2 E. rewrite (history_miss _ _ _ _ _ _ Hre (Hm w2 E)). reflexivity. }
    destruct (resp_ok r) eqn:Hok.
    2:{ apply (Hnone history_failed [EvSelect key; EvFetch (CoinHistory date)]);
          [cbn; auto|cbn; lia|exact Hfet|].
        intros w2 E. rewrite (history_miss _ _ _ _ _ _ Hre (Hm w2 E)), Hok. reflexivity. }
    destruct (resp_json r) as [data|] eqn:Hbody.
    2:{ apply (Hnone history_failed [EvSelect key; EvFetch (CoinHistory date)]);
          [cbn; auto|cbn; lia|exact Hfet|].
        intros w2 E. rewrite (history_miss _ _ _ _ _ _ Hre (Hm w2 E)), Hok, Hbody.
        reflexivity. }
    destruct (truthy (allPrices_of data)) eqn:Hap.
    2:{ apply (Hnone price_data_unavailable [EvSelect key; EvFetch (CoinHistory date)]);
          [cbn; auto|cbn; lia|exact Hfet|].
        intros w2 E. rewrite (history_miss _ _ _ _ _ _ Hre (Hm w2 E)), Hok, Hbody, Hap.
        reflexivity. }
    destruct (kept_prices (allPrices_of data) (currenciesToReturn (currencyParam q)) [])
      as [|p fp] eqn:Ek.
    + apply (Hnone no_supported_currencies [EvSelect key; EvFetch (CoinHistory date)]);
        [cbn; auto|cbn; lia|exact Hfet|].
      intros w2 E. rewrite (history_miss _ _ _ _ _ _ Hre (Hm w2 E)), Hok, Hbody, Hap, Ek.
      reflexivity.
    + exists (Http 200 (history_result date (allPrices_of data)
                          (currenciesToReturn (currencyParam q)))),
             (Some (Row (JSON_roundtrip (history_result date (allPrices_of data)
                                           (currenciesToReturn (currencyParam q)))) t')),
             [EvSelect key; EvFetch (CoinHistory date); EvInsertOrReplace key].
      split_and!; [cbn; lia|cbn; auto|right; split_and!; reflexivity|].
      intros w2 E. rewrite (history_miss _ _ _ _ _ _ Hre (Hm w2 E)), Hok, Hbody, Hap, Ek.
      reflexivity.
Qed.

Lemma fresh_entry_db w1 w2 key t :
  db w1 !! key = db w2 !! key → fresh_entry w1 key t = fresh_entry w2 key t.
Proof. unfold fresh_entry. intros ->. reflexivity. Qed.

Lemma apply_insert_lookup_ne key ins w k :
  k ≠ key → db (apply_insert key ins w) !! k = db w !! k.
Proof.
  intros H. destruct ins as [r|]; [|reflexivity]. cbn [apply_insert db set_db].
  apply lookup_insert_ne. congruence.
Qed.

Lemma apply_insert_live key ins w :
  cachedBtcData (apply_insert key ins w) = cachedBtcData w ∧
  lastFetchTime (apply_insert key ins w) = lastFetchTime w.
Proof. destruct ins; split; reflexivity. Qed.

(** The live-price handler reads and writes the two module-level variables
    only: the table rides along. *)
Lemma btc_data_set_db now up w d :
  run (btc_data now up) (set_db w d) =
  ((run (btc_data now up) w).1,
   (set_db (run (btc_data now up) w).2.1 d, (run (btc_data now up) w).2.2)).
Proof.
  destruct (live_cache_valid w now) eqn:Hc.
  - rewrite (btc_data_hit now up (set_db w d)) by exact Hc.
    rewrite (btc_data_hit now up w Hc). reflexivity.
  - rewrite (btc_data_refresh now up (set_db w d)) by exact Hc.
    rewrite (btc_data_refresh now up w Hc). cbv zeta.
    destruct up as [|r]; [reflexivity|].
    destruct (resp_ok r); [|reflexivity].
    destruct (resp_json r) as [data|]; [|reflexivity].
    destruct (has_bitcoin data); reflexivity.
Qed.

(** X1. Two current-price requests less than 5 minutes apart: when the first
    one refreshes the cache from a usable upstream payload, the second is
    answered with the same response, makes no upstream call and leaves the
    state as it is, whatever the upstream service would answer then. *)
Theorem live_cache_repeat (w : world) (now1 : Z) (up1 : fetch_result) (data : jsval)
    (now2 : Z) (up2 : fetch_result) :
  live_cache_valid w now1 = false →
  upstream_ok up1 data → has_bitcoin data = true →
  now2 - now1 < CACHE_DURATION_MS →
  let first := run (btc_data now1 up1) w in
  upstream_calls first.2.2 = 1%nat ∧
  run (btc_data now2 up2) first.2.1 = (first.1, (first.2.1, [])).
Proof.
  intros Hc (r & -> & Hok & Hbody) Hb Hwin first. unfold first.
  rewrite (btc_data_refresh _ _ _ Hc). cbv zeta. rewrite Hok, Hbody, Hb. cbn [fst snd].
  split; [reflexivity|]. apply btc_data_hit. unfold live_cache_valid.
  cbn [cachedBtcData lastFetchTime truthy andb]. apply Z.ltb_lt. exact Hwin.
Qed.

Lemma live_cache_repeat_witness :
  let data := JObj [("bitcoin", JObj [("usd", JNum (65000 # 1))])] in
  let up := FetchResolved (Response true 200 "OK" (Some data)) in
  let first := run (btc_data 1000000 up) init_world in
  upstream_calls first.2.2 = 1%nat ∧
  run (btc_data 1299999 FetchRejected) first.2.1 = (first.1, (first.2.1, [])).
Proof.
  intros data up.
  apply (live_cache_repeat init_world 1000000 up data 1299999 FetchRejected).
  - reflexivity.
  - exists (Response true 200 "OK" (Some data)). repeat split.
  - reflexivity.
  - vm_compute. reflexivity.
Defined.

(** X2. The live-price slot never holds a partial payload.  In every state
    of the process it is either [null], with fetch time 0, or an object
    with exactly the members USD, AUD, GBP, EUR, CAD, in this order, each
    an object with exactly the members price, percentChange24h and
    marketCap. *)
Theorem live_slot_complete (w : world) :
  reachable w →
  (cachedBtcData w = JNull ∧ lastFetchTime w = 0) ∨
  ∃ btcData,
    cachedBtcData w = JObj btcData ∧
    keys btcData = ["USD"; "AUD"; "GBP"; "EUR"; "CAD"] ∧
    ∀ k, In k (keys btcData) →
      ∃ price change cap,
        assoc k btcData =
          Some (JObj [("price", price); ("percentChange24h", change); ("marketCap", cap)]).
Proof.
  induction 1 as [|w Hw IH|w now up Hw IH|w date q t up t' Hw IH|w now Hw IH].
  - left. split; reflexivity.
  - left. split; reflexivity.
  - unfold world_after. destruct (live_cache_valid w now) eqn:Hc.
    + rewrite (btc_data_hit _ _ _ Hc). exact IH.
    + rewrite (btc_data_refresh _ _ _ Hc). cbv zeta.
      destruct up as [|r]; [exact IH|].
      destruct (resp_ok r); [|exact IH].
      destruct (resp_json r) as [data|]; [|exact IH].
      destruct (has_bitcoin data); [|exact IH].
      right. eexists. split; [reflexivity|]. split; [reflexivity|].
      intros k [<-|[<-|[<-|[<-|[<-|[]]]]]]; do 3 eexists; reflexivity.
  - unfold world_after.
    destruct (history_frame date q t up t' w) as (resp & ins & tr & _ & _ & _ & Hrun).
    rewrite (Hrun w eq_refl). cbn [fst snd].
    destruct (apply_insert_live (cacheKey date (currenciesToReturn (currencyParam q))) ins w)
      as [-> ->].
    exact IH.
  - unfold world_after, prune_tick. rewrite prune_run. exact IH.
Qed.

Lemma live_slot_complete_witness :
  let data := JObj [("bitcoin", JObj [("usd", JNum (65000 # 1))])] in
  let w1 := world_after (btc_data 1000000 (FetchResolved (Response true 200 "OK" (Some data))))
              init_world in
  (cachedBtcData w1 = JNull ∧ lastFetchTime w1 = 0) ∨
  ∃ btcData,
    cachedBtcData w1 = JObj btcData ∧
    keys btcData = ["USD"; "AUD"; "GBP"; "EUR"; "CAD"] ∧
    ∀ k, In k (keys btcData) →
      ∃ price change cap,
        assoc k btcData =
          Some (JObj [("price", price); ("percentChange24h", change); ("marketCap", cap)]).
Proof.
  intros data w1. apply (live_slot_complete w1). apply reach_btc_data, reach_init.
Defined.

(** X3. A current-price request is always answered, with status 200 or 500
    and never by an escaping exception; it makes at most one upstream call
    and no storage call, leaves the table as it is, and a 200 answer is
    always the payload that the cache holds when the handler returns. *)
Theorem btc_data_outcome (w : world) (now : Z) (up : fetch_result) :
  ∃ resp w' tr,
    run (btc_data now up) w = (Val resp, (w', tr)) ∧
    (status resp = 200 ∨ status resp = 500) ∧
    (upstream_calls tr ≤ 1)%nat ∧
    (∀ e, In e tr → is_fetch e = true) ∧
    db w' = db w ∧
    (status resp = 200 → body resp = cachedBtcData w') ∧
    (status resp = 500 → w' = w ∧ body resp = JObj [("error", JStr "Failed to fetch BTC data")]).
Proof.
  assert (Hf : ∀ e, In e [EvFetch (SimplePrice "usd,aud,gbp,eur,cad")] → is_fetch e = true).
  { intros e [<-|[]]. reflexivity. }
  assert (Hfail : ∃ resp w' tr,
            (Val btc_data_failed, (w, [EvFetch (SimplePrice "usd,aud,gbp,eur,cad")])) =
              (Val resp, (w', tr)) ∧
            (status resp = 200 ∨ status resp = 500) ∧
            (upstream_calls tr ≤ 1)%nat ∧
            (∀ e, In e tr → is_fetch e = true) ∧
            db w' = db w ∧
            (status resp = 200 → body resp = cachedBtcData w') ∧
            (status resp = 500 →
               w' = w ∧ body resp = JObj [("error", JStr "Failed to fetch BTC data")])).
  { do 3 eexists. split; [reflexivity|].
    split_and!; [right; reflexivity|cbn; lia|exact Hf|reflexivity|discriminate|auto]. }
  destruct (live_cache_valid w now) eqn:Hc.
  - rewrite (btc_data_hit _ _ _ Hc). do 3 eexists. split; [reflexivity|].
    split_and!; [left; reflexivity|cbn; lia|intros e []|reflexivity|reflexivity|discriminate].
  - rewrite (btc_data_refresh _ _ _ Hc). cbv zeta.
    destruct up as [|r]; [exact Hfail|].
    destruct (resp_ok r); [|exact Hfail].
    destruct (resp_json r) as [data|]; [|exact Hfail].
    destruct (has_bitcoin data); [|exact Hfail].
    do 3 eexists. split; [reflexivity|].
    split_and!; [left; reflexivity|cbn; lia|exact Hf|reflexivity|reflexivity|discriminate].
Qed.

(** X4. A history request is always answered, with status 200, 400 or 500
    and never by an escaping exception; it makes at most one upstream
    call, never touches the live-price slot, and changes the table only
    when it answers 200 after an upstream call: the row under its key then
    holds the response body, as read back from its JSON text, stamped with
    the time of the write. *)
Theorem history_outcome (date : string) (currency : option qparam)
    (now_read : Z) (up : fetch_result) (now_write : Z) (w : world) :
  let key := cacheKey date (currenciesToReturn (currencyParam currency)) in
  ∃ resp w' tr,
    run (btc_price_history date currency now_read up now_write) w = (Val resp, (w', tr)) ∧
    (status resp = 200 ∨ status resp = 400 ∨ status resp = 500) ∧
    (upstream_calls tr ≤ 1)%nat ∧
    cachedBtcData w' = cachedBtcData w ∧ lastFetchTime w' = lastFetchTime w ∧
    (w' = w ∨
     (status resp = 200 ∧ upstream_calls tr = 1%nat ∧
      w' = set_db w (<[key := Row (JSON_roundtrip (body resp)) now_write]> (db w)))).
Proof.
  intros key.
  destruct (history_frame date currency now_read up now_write w)
    as (resp & ins & tr & Hu & Hs & Hins & Hrun).
  exists resp, (apply_insert key ins w), tr.
  split; [apply Hrun; reflexivity|].
  destruct (apply_insert_live key ins w) as [E1 E2].
  split_and!; [exact Hs|exact Hu|exact E1|exact E2|].
  destruct Hins as [[-> _]|(H200 & -> & ->)]; [left; reflexivity|].
  right. split_and!; [exact H200|reflexivity|reflexivity].
Qed.

(** X5. When a history request misses the store and the upstream call
    fails, answers with a non-success status or sends a body that is not
    JSON, the request is answered 500 "Failed to fetch BTC price history"
    after one upstream call and the state is as it was: an entry that has
    expired is neither served nor removed. *)
Theorem history_upstream_failure (date : string) (currency : option qparam)
    (now_read : Z) (up : fetch_result) (now_write : Z) (w : world) :
  let key := cacheKey date (currenciesToReturn (currencyParam currency)) in
  dd_mm_yyyy date →
  fresh_entry w key now_read = None →
  upstream_failed up →
  run (btc_price_history date currency now_read up now_write) w =
    (Val (Http 500 (JObj [("error", JStr "Failed to fetch BTC price history")])),
     (w, [EvSelect key; EvFetch (CoinHistory date)])).
Proof.
  intros key Hd Hmiss Hup. apply date_regex_spec in Hd.
  rewrite (history_miss _ _ _ _ _ _ Hd) by (fold key; rewrite Hmiss; reflexivity).
  destruct Hup as [->|(r & -> & [H|H])]; [reflexivity|rewrite H; reflexivity|].
  rewrite H. destruct (resp_ok r); reflexivity.
Qed.

Lemma history_upstream_failure_witness :
  let data := JObj [("market_data", JObj [("current_price", JObj [("usd", JNum (65000 # 1))])])] in
  let w1 := world_after (btc_price_history "19-05-2025" (Some (QStr "usd")) 1000
                           (FetchResolved (Response true 200 "OK" (Some data))) 1001)
              init_world in
  run (btc_price_history "19-05-2025" (Some (QStr "usd")) 90000000
         (FetchResolved (Response false 429 "Too Many Requests" None)) 90000001) w1 =
    (Val (Http 500 (JObj [("error", JStr "Failed to fetch BTC price history")])),
     (w1, [EvSelect "19-05-2025-usd"; EvFetch (CoinHistory "19-05-2025")])).
Proof.
  intros data w1.
  apply (history_upstream_failure "19-05-2025" (Some (QStr "usd")) 90000000
           (FetchResolved (Response false 429 "Too Many Requests" None)) 90000001 w1).
  - apply date_regex_spec. vm_compute. reflexivity.
  - vm_compute. reflexivity.
  - right. eexists. split; [reflexivity|]. left. reflexivity.
Defined.

Lemma cacheKey_effective_inj d1 d2 cp1 cp2 :
  dd_mm_yyyy d1 → dd_mm_yyyy d2 →
  cacheKey d1 (currenciesToReturn cp1) = cacheKey d2 (currenciesToReturn cp2) →
  d1 = d2 ∧ currenciesToReturn cp1 = currenciesToReturn cp2.
Proof.
  intros (a1&a2&a3&a4&a5&a6&a7&a8&->&_) (b1&b2&b3&b4&b5&b6&b7&b8&->&_).
  unfold cacheKey. cbn [String.append]. intros H.
  injection H as ? ? ? ? ? ? ? ? H. subst. split; [reflexivity|].
  destruct (currenciesToReturn_cases cp1) as [E1|(c1 & _ & Hin1 & E1)];
    destruct (currenciesToReturn_cases cp2) as [E2|(c2 & _ & Hin2 & E2)];
    rewrite E1, E2 in *; vm_compute in H.
  - reflexivity.
  - subst c2. cbn in Hin2. destruct Hin2 as [X|[X|[X|[X|[X|[]]]]]]; discriminate.
  - subst c1. cbn in Hin1. destruct Hin1 as [X|[X|[X|[X|[X|[]]]]]]; discriminate.
  - congruence.
Qed.

(** X6. A history request that finds its entry 24 hours old or older treats
    it as a miss: it makes exactly one upstream call whatever the answer.
    When the upstream answer yields a result, the old row is replaced by
    the new result with the time of the write; the number of rows and all
    the other rows stay as they were. *)
Theorem history_expired_refetch (date : string) (currency : option qparam)
    (now_read : Z) (up : fetch_result) (now_write : Z) (w : world) (r : row) :
  let cs := currenciesToReturn (currencyParam currency) in
  let key := cacheKey date cs in
  dd_mm_yyyy date →
  db w !! key = Some r →
  (oneDayMs ≤ now_read - timestamp r)%Z →
  ∃ resp w' tr,
    run (btc_price_history date currency now_read up now_write) w = (Val resp, (w', tr)) ∧
    upstream_calls tr = 1%nat ∧
    (∀ data,
       upstream_ok up data → is_json data = true →
       Exists (λ c, truthy (prop (allPrices_of data) c) = true) cs →
       status resp = 200 ∧
       db w' !! key = Some (Row (body resp) now_write) ∧
       size (db w') = size (db w) ∧
       ∀ k, k ≠ key → db w' !! k = db w !! k).
Proof.
  intros cs key Hd Hr Hage. apply date_regex_spec in Hd.
  assert (Hmiss : fresh_entry w key now_read = None).
  { unfold fresh_entry. rewrite Hr.
    destruct (Z.ltb_spec (now_read - timestamp r) oneDayMs); [lia|reflexivity]. }
  rewrite (history_miss _ _ _ _ _ _ Hd) by (fold cs key; rewrite Hmiss; reflexivity).
  fold cs key.
  assert (Hno : ∀ data,
            upstream_ok up data → is_json data = true →
            Exists (λ c, truthy (prop (allPrices_of data) c) = true) cs →
            (truthy (allPrices_of data) = false ∨ kept_prices (allPrices_of data) cs [] = []) →
            False).
  { intros data _ _ Hex [Hf|Hk].
    - apply Exists_exists in Hex as (c & _ & Hc). apply truthy_prop in Hc. congruence.
    - apply kept_prices_nil in Hk as [_ Hall]. rewrite Forall_forall in Hall.
      apply Exists_exists in Hex as (c & Hin & Hc). rewrite (Hall c Hin) in Hc. discriminate. }
  destruct up as [|rs].
  { do 3 eexists. split; [reflexivity|]. split; [reflexivity|].
    intros data (r0 & [=] & _). }
  destruct (resp_ok rs) eqn:Hok.
  2:{ do 3 eexists. split; [reflexivity|]. split; [reflexivity|].
      intros data (r0 & [= <-] & Hok' & _). congruence. }
  destruct (resp_json rs) as [data0|] eqn:Hbody.
  2:{ do 3 eexists. split; [reflexivity|]. split; [reflexivity|].
      intros data (r0 & [= <-] & _ & Hb'). congruence. }
  destruct (truthy (allPrices_of data0)) eqn:Hap.
  2:{ do 3 eexists. split; [reflexivity|]. split; [reflexivity|].
      intros data Hup Hj Hex. destruct Hup as (r0 & [= <-] & _ & Hb').
      assert (data = data0) as -> by congruence.
      destruct (Hno data0); eauto. exists rs. auto. }
  destruct (kept_prices (allPrices_of data0) cs []) as [|p fp] eqn:Ek.
  { do 3 eexists. split; [reflexivity|]. split; [reflexivity|].
    intros data Hup Hj Hex. destruct Hup as (r0 & [= <-] & _ & Hb').
    assert (data = data0) as -> by congruence.
    destruct (Hno data0); eauto. exists rs. auto. }
  do 3 eexists. split; [reflexivity|]. split; [reflexivity|].
  intros data (r0 & [= <-] & _ & Hb') Hj _.
  assert (data = data0) as -> by congruence.
  rewrite (history_result_roundtrip _ _ _ Hj). cbn [db set_db status body].
  split_and!.
  - reflexivity.
  - apply lookup_insert_eq.
  - apply map_size_insert_Some. rewrite Hr. eauto.
  - intros k Hk. apply lookup_insert_ne. congruence.
Qed.

Lemma history_expired_refetch_witness :
  let old := JObj [("market_data", JObj [("current_price", JObj [("usd", JNum (65000 # 1))])])] in
  let new := JObj [("market_data", JObj [("current_price", JObj [("usd", JNum (66000 # 1))])])] in
  let w1 := world_after (btc_price_history "19-05-2025" (Some (QStr "usd")) 1000
                           (FetchResolved (Response true 200 "OK" (Some old))) 1001)
              init_world in
  ∃ resp w' tr,
    run (btc_price_history "19-05-2025" (Some (QStr "usd")) 86401001
           (FetchResolved (Response true 200 "OK" (Some new))) 86401002) w1 =
      (Val resp, (w', tr)) ∧
    upstream_calls tr = 1%nat ∧
    status resp = 200 ∧
    db w' !! "19-05-2025-usd" = Some (Row (body resp) 86401002) ∧
    size (db w') = size (db w1).
Proof.
  intros old new w1.
  destruct (history_expired_refetch "19-05-2025" (Some (QStr "usd")) 86401001
              (FetchResolved (Response true 200 "OK" (Some new))) 86401002 w1
              (Row (JObj [("date", JStr "19-05-2025");
                          ("prices", JObj [("usd", JNum (65000 # 1))])]) 1001))
    as (resp & w' & tr & Hrun & Hcalls & Hok).
  - apply date_regex_spec. vm_compute. reflexivity.
  - vm_compute. reflexivity.
  - vm_compute. discriminate.
  - exists resp, w', tr. split; [exact Hrun|]. split; [exact Hcalls|].
    destruct (Hok new) as (H1 & H2 & H3 & _).
    + exists (Response true 200 "OK" (Some new)). repeat split.
    + reflexivity.
    + apply Exists_exists. exists "usd". split; [left; reflexivity|reflexivity].
    + auto.
Defined.

Lemma btc_data_db now up w : db (run (btc_data now up) w).2.1 = db w.
Proof.
  destruct (live_cache_valid w now) eqn:Hc.
  - rewrite (btc_data_hit _ _ _ Hc). reflexivity.
  - rewrite (btc_data_refresh _ _ _ Hc). cbv zeta.
    destruct up as [|r]; [reflexivity|].
    destruct (resp_ok r); [|reflexivity].
    destruct (resp_json r) as [data|]; [|reflexivity].
    destruct (has_bitcoin data); reflexivity.
Qed.

Lemma apply_insert_set_db key ins w :
  apply_insert key ins w = set_db w (db (apply_insert key ins w)).
Proof. destruct ins; [reflexivity|]. cbn. symmetry. apply set_db_same. Qed.

(** X7. A current-price request and a history request do not interfere:
    served in either order from the same state, each gets the same
    response and makes the same calls, and the final state is the same. *)
Theorem live_history_commute (w : world) (now : Z) (up : fetch_result)
    (date : string) (currency : option qparam) (now_read : Z) (up_h : fetch_result)
    (now_write : Z) :
  let live := btc_data now up in
  let hist := btc_price_history date currency now_read up_h now_write in
  let a := run live w in
  let b_after_a := run hist a.2.1 in
  let b := run hist w in
  let a_after_b := run live b.2.1 in
  a_after_b.1 = a.1 ∧ a_after_b.2.2 = a.2.2 ∧
  b_after_a.1 = b.1 ∧ b_after_a.2.2 = b.2.2 ∧
  a_after_b.2.1 = b_after_a.2.1.
Proof.
  intros live hist a b_after_a b a_after_b.
  set (key := cacheKey date (currenciesToReturn (currencyParam currency))).
  destruct (history_frame date currency now_read up_h now_write w)
    as (resp & ins & tr & _ & _ & _ & Hrun).
  assert (Hb : b = (Val resp, (apply_insert key ins w, tr))) by (apply Hrun; reflexivity).
  assert (Hba : b_after_a = (Val resp, (apply_insert key ins a.2.1, tr))).
  { apply Hrun. apply fresh_entry_db. unfold a, live. rewrite btc_data_db. reflexivity. }
  assert (Hab : a_after_b = (a.1, (set_db a.2.1 (db (apply_insert key ins w)), a.2.2))).
  { unfold a_after_b. rewrite Hb. cbn [fst snd]. rewrite (apply_insert_set_db key ins w).
    unfold live. rewrite btc_data_set_db. reflexivity. }
  rewrite Hab, Hba, Hb. cbn [fst snd]. split_and!; try reflexivity.
  destruct ins as [r|]; cbn [apply_insert db set_db].
  - unfold a, live. rewrite btc_data_db. destruct (run (btc_data now up) w).2.1. reflexivity.
  - rewrite <- (btc_data_db now up w). apply set_db_same.
Qed.

Lemma apply_insert_commute k1 k2 ins1 ins2 w :
  k1 ≠ k2 →
  apply_insert k1 ins1 (apply_insert k2 ins2 w) = apply_insert k2 ins2 (apply_insert k1 ins1 w).
Proof.
  intros Hne. destruct ins1 as [r1|], ins2 as [r2|]; try reflexivity.
  cbn [apply_insert db set_db cachedBtcData lastFetchTime].
  rewrite insert_insert_ne by exact Hne. reflexivity.
Qed.

(** X8. History requests for different dates, or for different effective
    currency sets, do not interfere: served in either order from the same
    state, each gets the same response and makes the same calls, and the
    final state is the same. *)
Theorem history_requests_isolated (w : world)
    (date_a : string) (currency_a : option qparam) (read_a : Z) (up_a : fetch_result) (write_a : Z)
    (date_b : string) (currency_b : option qparam) (read_b : Z) (up_b : fetch_result) (write_b : Z) :
  dd_mm_yyyy date_a → dd_mm_yyyy date_b →
  date_a ≠ date_b ∨
    currenciesToReturn (currencyParam currency_a) ≠ currenciesToReturn (currencyParam currency_b) →
  let req_a := btc_price_history date_a currency_a read_a up_a write_a in
  let req_b := btc_price_history date_b currency_b read_b up_b write_b in
  let a := run req_a w in
  let b_after_a := run req_b a.2.1 in
  let b := run req_b w in
  let a_after_b := run req_a b.2.1 in
  a_after_b.1 = a.1 ∧ a_after_b.2.2 = a.2.2 ∧
  b_after_a.1 = b.1 ∧ b_after_a.2.2 = b.2.2 ∧
  a_after_b.2.1 = b_after_a.2.1.
Proof.
  intros Ha Hb Hdiff req_a req_b a b_after_a b a_after_b.
  set (ka := cacheKey date_a (currenciesToReturn (currencyParam currency_a))).
  set (kb := cacheKey date_b (currenciesToReturn (currencyParam currency_b))).
  assert (Hne : ka ≠ kb).
  { intros E. apply (cacheKey_effective_inj _ _ _ _ Ha Hb) in E as [E1 E2].
    destruct Hdiff; contradiction. }
  destruct (history_frame date_a currency_a read_a up_a write_a w)
    as (ra & ia & ta & _ & _ & _ & Hrun_a).
  destruct (history_frame date_b currency_b read_b up_b write_b w)
    as (rb & ib & tb & _ & _ & _ & Hrun_b).
  fold ka in Hrun_a. fold kb in Hrun_b.
  assert (Ea : a = (Val ra, (apply_insert ka ia w, ta))) by (apply Hrun_a; reflexivity).
  assert (Eb : b = (Val rb, (apply_insert kb ib w, tb))) by (apply Hrun_b; reflexivity).
  assert (Eba : b_after_a = (Val rb, (apply_insert kb ib (apply_insert ka ia w), tb))).
  { unfold b_after_a. rewrite Ea. cbn [fst snd]. apply Hrun_b.
    apply fresh_entry_db. apply apply_insert_lookup_ne. congruence. }
  assert (Eab : a_after_b = (Val ra, (apply_insert ka ia (apply_insert kb ib w), ta))).
  { unfold a_after_b. rewrite Eb. cbn [fst snd]. apply Hrun_a.
    apply fresh_entry_db. apply apply_insert_lookup_ne. exact Hne. }
  rewrite Ea, Eb, Eba, Eab. cbn [fst snd]. split_and!; try reflexivity.
  apply apply_insert_commute. exact Hne.
Qed.

Lemma history_requests_isolated_witness :
  let data := JObj [("market_data",
                     JObj [("current_price",
                            JObj [("usd", JNum (65000 # 1)); ("eur", JNum (60000 # 1))])])] in
  let up := FetchResolved (Response true 200 "OK" (Some data)) in
  let req_a := btc_price_history "19-05-2025" (Some (QStr "usd")) 1000 up 1001 in
  let req_b := btc_price_history "19-05-2025" None 2000 up 2001 in
  let a := run req_a init_world in
  let b_after_a := run req_b a.2.1 in
  let b := run req_b init_world in
  let a_after_b := run req_a b.2.1 in
  a_after_b.1 = a.1 ∧ a_after_b.2.2 = a.2.2 ∧
  b_after_a.1 = b.1 ∧ b_after_a.2.2 = b.2.2 ∧
  a_after_b.2.1 = b_after_a.2.1.
Proof.
  intros data up.
  apply (history_requests_isolated init_world
           "19-05-2025" (Some (QStr "usd")) 1000 up 1001
           "19-05-2025" None 2000 up 2001).
  - apply date_regex_spec. vm_compute. reflexivity.
  - apply date_regex_spec. vm_compute. reflexivity.
  - right. vm_compute. discriminate.
Defined.

Lemma fresh_entry_prune w now key t :
  (now ≤ t)%Z →
  fresh_entry (world_after (prune_tick now) w) key t = fresh_entry w key t.
Proof.
  intros Hle. unfold world_after, prune_tick. rewrite prune_run. cbn [fst snd].
  unfold fresh_entry. cbn [db set_db].
  destruct (db w !! key) as [r|] eqn:Hr.
  - destruct (decide (stale (now - oneDayMs) (key, r))) as [Hs|Hs].
    + rewrite (proj2 (map_lookup_filter_None _ _ _)).
      * unfold stale in Hs. cbn [snd] in Hs.
        destruct (Z.ltb_spec (t - timestamp r) oneDayMs); [lia|reflexivity].
      * right. intros r' Hr'. rewrite Hr in Hr'. injection Hr' as <-. auto.
    + rewrite (proj2 (map_lookup_filter_Some _ _ _ r)) by auto. reflexivity.
  - rewrite (proj2 (map_lookup_filter_None _ _ _)); [reflexivity|]. left. exact Hr.
Qed.

(** X9. The sweep is invisible to clients: a history request whose lookup
    happens at or after the time of the sweep, and a current-price request
    at any time, get the same response and make the same calls whether or
    not the sweep has run. *)
Theorem sweep_invisible (w : world) (now : Z)
    (date : string) (currency : option qparam) (now_read : Z) (up : fetch_result)
    (now_write : Z) :
  (now ≤ now_read)%Z →
  let swept := world_after (prune_tick now) w in
  let hist := btc_price_history date currency now_read up now_write in
  (run hist swept).1 = (run hist w).1 ∧
  (run hist swept).2.2 = (run hist w).2.2 ∧
  ∀ now' up',
    (run (btc_data now' up') swept).1 = (run (btc_data now' up') w).1 ∧
    (run (btc_data now' up') swept).2.2 = (run (btc_data now' up') w).2.2.
Proof.
  intros Hle swept hist.
  destruct (history_frame date currency now_read up now_write w)
    as (resp & ins & tr & _ & _ & _ & Hrun).
  unfold hist. rewrite (Hrun w eq_refl).
  rewrite (Hrun swept) by (apply fresh_entry_prune; exact Hle).
  split_and!; try reflexivity.
  intros now' up'. unfold swept, world_after, prune_tick. rewrite prune_run. cbn [fst snd].
  rewrite btc_data_set_db. split; reflexivity.
Qed.

Lemma sweep_invisible_witness :
  let data := JObj [("market_data", JObj [("current_price", JObj [("usd", JNum (65000 # 1))])])] in
  let up := FetchResolved (Response true 200 "OK" (Some data)) in
  let w1 := world_after (btc_price_history "19-05-2025" (Some (QStr "usd")) 1000 up 1001)
              init_world in
  let swept := world_after (prune_tick 90000000) w1 in
  let hist := btc_price_history "19-05-2025" (Some (QStr "usd")) 90000000 FetchRejected 90000001 in
  (run hist swept).1 = (run hist w1).1 ∧ (run hist swept).2.2 = (run hist w1).2.2.
Proof.
  intros data up w1 swept hist.
  destruct (sweep_invisible w1 90000000 "19-05-2025" (Some (QStr "usd")) 90000000
              FetchRejected 90000001) as (H1 & H2 & _).
  - lia.
  - split; [exact H1|exact H2].
Defined.

(** X10. The sweep and the lookup agree except at one instant.  A row the
    sweep deletes is one the lookup at that time already rejects; a row
    the lookup rejects but the sweep keeps is exactly 24 hours old. *)
Theorem sweep_read_boundary (w : world) (key : string) (r : row) (now : Z) :
  db w !! key = Some r →
  let swept := world_after (prune_tick now) w in
  (db swept !! key = None → fresh_entry w key now = None) ∧
  (fresh_entry w key now = None ∧ db swept !! key = Some r ↔
   now - timestamp r = oneDayMs).
Proof.
  intros Hr swept.
  assert (Hk : db swept !! key = Some r ↔ ¬ (timestamp r < now - oneDayMs)).
  { unfold swept, world_after, prune_tick. rewrite prune_run. cbn [fst snd db set_db].
    rewrite map_lookup_filter_Some. unfold stale. cbn [snd]. tauto. }
  assert (Hf : fresh_entry w key now = None ↔ (oneDayMs ≤ now - timestamp r)%Z).
  { unfold fresh_entry. rewrite Hr.
    destruct (Z.ltb_spec (now - timestamp r) oneDayMs); split; (congruence || lia). }
  split.
  - intros Hnone. apply Hf.
    destruct (decide (timestamp r < now - oneDayMs)) as [H|H]; [lia|].
    apply Hk in H. congruence.
  - rewrite Hk, Hf. lia.
Qed.

Lemma sweep_read_boundary_witness :
  let w := {| db := <["19-05-2025-usd" := Row (JObj []) 1000]> ∅;
              cachedBtcData := JNull; lastFetchTime := 0 |} in
  fresh_entry w "19-05-2025-usd" 86401000 = None ∧
  db (world_after (prune_tick 86401000) w) !! "19-05-2025-usd" = Some (Row (JObj []) 1000).
Proof.
  intros w.
  apply (proj2 (sweep_read_boundary w "19-05-2025-usd" (Row (JObj []) 1000) 86401000
                  ltac:(vm_compute; reflexivity))).
  vm_compute. reflexivity.
Defined.

(** X11. No two requests share a cache entry unless they agree on the date
    and on the effective currency set: for well-formed dates the composite
    key determines both. *)
Theorem cacheKey_injective (date1 date2 : string) (currency1 currency2 : option qparam) :
  dd_mm_yyyy date1 → dd_mm_yyyy date2 →
  (cacheKey date1 (currenciesToReturn (currencyParam currency1)) =
   cacheKey date2 (currenciesToReturn (currencyParam currency2))
   ↔ date1 = date2 ∧
     currenciesToReturn (currencyParam currency1) = currenciesToReturn (currencyParam currency2)).
Proof.
  intros H1 H2. split.
  - apply cacheKey_effective_inj; assumption.
  - intros [-> ->]. reflexivity.
Qed.

Lemma cacheKey_injective_witness :
  cacheKey "19-05-2025" (currenciesToReturn (currencyParam (Some (QStr "USD")))) =
  cacheKey "19-05-2025" (currenciesToReturn (currencyParam (Some (QArr [QStr "usd"])))).
Proof.
  apply (cacheKey_injective "19-05-2025" "19-05-2025" (Some (QStr "USD"))
           (Some (QArr [QStr "usd"]))).
  - apply date_regex_spec. vm_compute. reflexivity.
  - apply date_regex_spec. vm_compute. reflexivity.
  - split; reflexivity.
Defined.

(** X12. Sweeps compose: a sweep followed by one with a later (or equal)
    cutoff leaves the state that the second sweep alone would leave.  This
    holds for any two retention periods passed to the sweep. *)
Theorem sweeps_compose (w : world) (age1 now1 age2 now2 : Z) :
  (now1 - age1 ≤ now2 - age2)%Z →
  world_after (pruneOldCacheEntries age2 now2) (world_after (pruneOldCacheEntries age1 now1) w) =
  world_after (pruneOldCacheEntries age2 now2) w.
Proof.
  intros Hle. unfold world_after. rewrite !prune_run. cbn [fst snd db set_db].
  unfold set_db. cbn [cachedBtcData lastFetchTime]. f_equal.
  apply map_eq. intros k. apply option_eq. intros r.
  rewrite !map_lookup_filter_Some. unfold stale. cbn [snd]. split.
  - intros [[H _] H2]. auto.
  - intros [H H2]. split_and!; auto. lia.
Qed.

Lemma sweeps_compose_witness :
  let w := {| db := <["19-05-2025-usd" := Row (JObj []) 1000]>
                      (<["20-05-2025-usd" := Row (JObj []) 50000000]> ∅);
              cachedBtcData := JNull; lastFetchTime := 0 |} in
  world_after (prune_tick 140000000) (world_after (prune_tick 90000000) w) =
  world_after (prune_tick 140000000) w.
Proof.
  intros w. apply (sweeps_compose w oneDayMs 90000000 oneDayMs 140000000).
  vm_compute. discriminate.
Defined.

(** X13. The count the sweep reports is the number of rows it removed: the
    rows before the sweep are the rows after it plus the reported count,
    for any retention period. *)
Theorem sweep_count (w : world) (maxAgeMs now : Z) :
  ∃ n,
    (run (pruneOldCacheEntries maxAgeMs now) w).2.2 =
      [EvDelete (now - maxAgeMs); EvLogPruned n] ∧
    size (db w) = (size (db (world_after (pruneOldCacheEntries maxAgeMs now) w)) + n)%nat.
Proof.
  unfold world_after. rewrite prune_run. cbn [fst snd db set_db].
  eexists. split; [reflexivity|].
  rewrite <- (map_filter_union_complement (stale (now - maxAgeMs)) (db w)) at 1.
  rewrite map_size_disj_union by apply map_disjoint_filter_complement.
  lia.
Qed.




Lemma set_field_Forall (P : string * jsval → Prop) k v fields :
  P (k, v) → Forall P fields → Forall P (set_field k v fields).
Proof.
  intros Hv. induction 1 as [|[k' x] fs Hx Hfs IH]; cbn.
  - repeat constructor. exact Hv.
  - destruct (String.eqb k k'); constructor; auto.
Qed.

Lemma kept_prices_truthy allPrices cs acc :
  Forall (λ kv : string * jsval, truthy kv.2 = true) acc →
  Forall (λ kv : string * jsval, truthy kv.2 = true) (kept_prices allPrices cs acc).
Proof.
  revert acc. induction cs as [|c cs IH]; intros acc Hacc; [exact Hacc|].
  rewrite kept_prices_cons. apply IH.
  destruct (truthy (prop allPrices c)) eqn:Ht; [|exact Hacc].
  apply set_field_Forall; [exact Ht|exact Hacc].
Qed.

Lemma JSON_roundtrip_obj_keys fields :
  Forall (λ kv : string * jsval, truthy kv.2 = true) fields →
  ∃ fields', JSON_roundtrip (JObj fields) = JObj fields' ∧ keys fields' = keys fields.
Proof.
  induction 1 as [|[k x] fs Hx Hfs (fs' & E & Hk)].
  - exists []. split; reflexivity.
  - cbn in E. injection E as E. cbn [snd] in Hx.
    exists ((k, JSON_roundtrip x) :: fs'). split.
    + cbn. rewrite E. destruct x; try reflexivity. discriminate.
    + cbn. f_equal. exact Hk.
Qed.

Lemma history_result_stored date allPrices cs :
  ∃ prices,
    JSON_roundtrip (history_result date allPrices cs) =
      JObj [("date", JStr date); ("prices", JObj prices)] ∧
    keys prices = keys (kept_prices allPrices cs []).
Proof.
  destruct (JSON_roundtrip_obj_keys (kept_prices allPrices cs []))
    as (prices & E & Hk); [apply kept_prices_truthy; constructor|].
  exists prices. split; [|exact Hk].
  unfold history_result. cbn in E |- *. injection E as E. rewrite E. reflexivity.
Qed.

Lemma keys_nil_inv fields : keys fields = [] → fields = [].
Proof. destruct fields; [reflexivity|discriminate]. Qed.

Lemma reachable_rows w : reachable w → ∀ k r, db w !! k = Some r → stored_row_ok k r.
Proof.
  induction 1 as [|w Hw IH|w now up Hw IH|w date q t up t' Hw IH|w now Hw IH]; intros k r.
  - cbn. rewrite lookup_empty. discriminate.
  - apply IH.
  - unfold world_after. rewrite btc_data_db. apply IH.
  - unfold world_after.
    destruct (regex_test date_regex date) eqn:Hre;
      [|rewrite (history_invalid _ _ _ _ _ _ Hre); apply IH].
    destruct (truthy (from_option price_data JNull
                (fresh_entry w (cacheKey date (currenciesToReturn (currencyParam q))) t)))
      eqn:Ht.
    + destruct (fresh_entry w _ t) as [r0|] eqn:Hf; [|discriminate].
      rewrite (history_hit _ _ _ _ _ _ _ Hre Hf Ht). apply IH.
    + rewrite (history_miss _ _ _ _ _ _ Hre Ht).
      destruct up as [|rs]; [apply IH|].
      destruct (resp_ok rs); [|apply IH].
      destruct (resp_json rs) as [data|]; [|apply IH].
      destruct (truthy (allPrices_of data)); [|apply IH].
      destruct (kept_prices (allPrices_of data) _ []) as [|p fp] eqn:Ek; [apply IH|].
      cbn [fst snd db set_db]. rewrite lookup_insert. case_decide; [|apply IH].
      intros [= <-]. subst k.
      destruct (history_result_stored date (allPrices_of data)
                  (currenciesToReturn (currencyParam q))) as (prices & E & Hk).
      exists date, (currencyParam q), prices. split_and!.
      * apply date_regex_spec. exact Hre.
      * reflexivity.
      * exact E.
      * intros ->. rewrite Ek in Hk. discriminate.
      * intros c Hc. rewrite Hk in Hc. apply kept_prices_keys in Hc as [Hc _]. exact Hc.
  - unfold world_after, prune_tick. rewrite prune_run. cbn [fst snd db set_db].
    intros H. apply map_lookup_filter_Some in H as [H _]. apply IH. exact H.
Qed.

(** X15. A hit serves the request's own data.  In every state of the
    process, a history request answered from the store gets a body whose
    date is the requested date and whose prices, at least one, are prices
    of currencies of the request's effective set: the table never holds,
    under a request's key, a row written for another date or currency
    set. *)
Theorem hit_serves_request (w : world) (date : string) (currency : option qparam)
    (now_read : Z) (up : fetch_result) (now_write : Z) (r : row) :
  let cs := currenciesToReturn (currencyParam currency) in
  let key := cacheKey date cs in
  reachable w → dd_mm_yyyy date →
  db w !! key = Some r → now_read - timestamp r < oneDayMs →
  ∃ prices,
    run (btc_price_history date currency now_read up now_write) w =
      (Val (Http 200 (JObj [("date", JStr date); ("prices", JObj prices)])),
       (w, [EvSelect key])) ∧
    prices ≠ [] ∧
    ∀ c, In c (keys prices) → In c cs.
Proof.
  intros cs key Hw Hd Hr Hage.
  destruct (reachable_rows w Hw key r Hr) as (date0 & cp0 & prices & Hd0 & Hk & Hp & Hne & Hin).
  apply (cacheKey_effective_inj date date0 (currencyParam currency) cp0 Hd Hd0) in Hk
    as [<- Hcs].
  exists prices. split_and!.
  - rewrite <- Hp. apply date_regex_spec in Hd.
    apply history_hit; [exact Hd|apply fresh_entry_lookup; auto|rewrite Hp; reflexivity].
  - exact Hne.
  - intros c Hc. unfold cs. rewrite Hcs. apply Hin. exact Hc.
Qed.

Lemma hit_serves_request_witness :
  let data := JObj [("market_data",
                     JObj [("current_price",
                            JObj [("usd", JNum (65000 # 1)); ("eur", JNum (60000 # 1))])])] in
  let up := FetchResolved (Response true 200 "OK" (Some data)) in
  let w1 := world_after (btc_price_history "19-05-2025" (Some (QStr "usd")) 1000 up 1001)
              init_world in
  ∃ prices,
    run (btc_price_history "19-05-2025" (Some (QStr "USD")) 5000 FetchRejected 5001) w1 =
      (Val (Http 200 (JObj [("date", JStr "19-05-2025"); ("prices", JObj prices)])),
       (w1, [EvSelect "19-05-2025-usd"])) ∧
    prices ≠ [] ∧
    ∀ c, In c (keys prices) → In c ["usd"].
Proof.
  intros data up w1.
  apply (hit_serves_request w1 "19-05-2025" (Some (QStr "USD")) 5000 FetchRejected 5001
           (Row (JObj [("date", JStr "19-05-2025");
                       ("prices", JObj [("usd", JNum (65000 # 1))])]) 1001)).
  - apply reach_history, reach_init.
  - apply date_regex_spec. vm_compute. reflexivity.
  - vm_compute. reflexivity.
  - vm_compute. reflexivity.
Defined.

Lemma keys_set_field_new k v fields :
  ¬ In k (keys fields) → keys (set_field k v fields) = (keys fields ++ [k])%list.
Proof.
  induction fields as [|[k' x] fs IH]; cbn; [reflexivity|]. intros Hn.
  destruct (String.eqb k k') eqn:E.
  - apply String.eqb_eq in E. subst. destruct Hn. left. reflexivity.
  - cbn. f_equal. apply IH. intros H. apply Hn. right. exact H.
Qed.

Lemma kept_prices_keys_order allPrices cs :
  NoDup cs →
  ∀ acc, (∀ c, In c cs → ¬ In c (keys acc)) →
  keys (kept_prices allPrices cs acc) =
  (keys acc ++ List.filter (λ c, truthy (prop allPrices c)) cs)%list.
Proof.
  induction 1 as [|c cs Hc Hnd IH]; intros acc Hacc.
  - cbn. rewrite app_nil_r. reflexivity.
  - rewrite kept_prices_cons. cbn [List.filter].
    destruct (truthy (prop allPrices c)) eqn:Ht.
    + rewrite IH.
      * rewrite keys_set_field_new by (apply Hacc; left; reflexivity).
        rewrite <- app_assoc. reflexivity.
      * intros c' Hin. rewrite keys_set_field_new by (apply Hacc; left; reflexivity).
        intros H. apply in_app_or in H as [H|[H|[]]].
        -- apply (Hacc c'); [right; exact Hin|exact H].
        -- subst c'. apply Hc. apply list_elem_of_In. exact Hin.
    + apply IH. intros c' Hin. apply Hacc. right. exact Hin.
Qed.

Lemma currenciesToReturn_NoDup cp : NoDup (currenciesToReturn cp).
Proof.
  destruct (currenciesToReturn_cases cp) as [->|(c & _ & _ & ->)].
  - unfold supportedCurrencies. repeat (constructor; [rewrite !list_elem_of_In; cbn; intuition discriminate|]).
    constructor.
  - repeat constructor. intros H. inversion H.
Qed.

(** X16. The prices of a fresh result are listed in the order of the
    effective currency set (usd, aud, cad, eur, gbp when no single currency
    is selected), whatever the order in which the upstream payload lists
    them: they are the effective currencies with a truthy upstream price,
    in that order, each once. *)
Theorem prices_in_request_order (date : string) (currency : option qparam)
    (now_read : Z) (up : fetch_result) (data : jsval) (now_write : Z) (w : world)
    (resp : http_response) (w' : world) (tr : list event) :
  let cs := currenciesToReturn (currencyParam currency) in
  fresh_entry w (cacheKey date cs) now_read = None →
  upstream_ok up data →
  run (btc_price_history date currency now_read up now_write) w = (Val resp, (w', tr)) →
  status resp = 200 →
  ∃ prices,
    body resp = JObj [("date", JStr date); ("prices", JObj prices)] ∧
    keys prices = List.filter (λ c, truthy (prop (allPrices_of data) c)) cs.
Proof.
  intros cs Hmiss (r & -> & Hok & Hbody) Hrun H200.
  destruct (regex_test date_regex date) eqn:Hre.
  2:{ rewrite (history_invalid _ _ _ _ _ _ Hre) in Hrun. injection Hrun as <- _ _.
      discriminate. }
  rewrite (history_miss _ _ _ _ _ _ Hre) in Hrun by (fold cs; rewrite Hmiss; reflexivity).
  rewrite Hok, Hbody in Hrun. fold cs in Hrun.
  destruct (truthy (allPrices_of data)); [|injection Hrun as <- _ _; discriminate].
  destruct (kept_prices (allPrices_of data) cs []) eqn:Ek;
    [injection Hrun as <- _ _; discriminate|].
  injection Hrun as <- _ _. eexists. split; [reflexivity|].
  rewrite (kept_prices_keys_order _ cs (currenciesToReturn_NoDup _) []); [reflexivity|].
  intros c _ [].
Qed.

Lemma prices_in_request_order_witness :
  let data := JObj [("market_data",
                     JObj [("current_price",
                            JObj [("gbp", JNum (51000 # 1)); ("eur", JNum 0);
                                  ("usd", JNum (65000 # 1))])])] in
  let up := FetchResolved (Response true 200 "OK" (Some data)) in
  ∃ prices,
    JObj [("date", JStr "19-05-2025");
          ("prices", JObj [("usd", JNum (65000 # 1)); ("gbp", JNum (51000 # 1))])] =
      JObj [("date", JStr "19-05-2025"); ("prices", JObj prices)] ∧
    keys prices = ["usd"; "gbp"].
Proof.
  intros data up.
  apply (prices_in_request_order "19-05-2025" None 1000 up data 1001 init_world
           (Http 200 (JObj [("date", JStr "19-05-2025");
                            ("prices", JObj [("usd", JNum (65000 # 1));
                                             ("gbp", JNum (51000 # 1))])]))
           (world_after (btc_price_history "19-05-2025" None 1000 up 1001) init_world)
           [EvSelect "19-05-2025-usd,aud,cad,eur,gbp"; EvFetch (CoinHistory "19-05-2025");
            EvInsertOrReplace "19-05-2025-usd,aud,cad,eur,gbp"]).
  - vm_compute. reflexivity.
  - exists (Response true 200 "OK" (Some data)). repeat split.
  - vm_compute. reflexivity.
  - reflexivity.
Defined.

(** X17. In the earlier revision of the history handler a request that
    misses the store never reaches the upstream service: building the URL
    reads [apiKey], which is not declared, and the request is answered 500
    after the lookup alone.  As the handler is the only writer of the
    table and never gets to its write, it never changes the state and
    never makes an upstream call, whatever the request. *)
Theorem legacy_history_never_fetches (date : string)
    (now_read : Z) (up : fetch_result) (now_write : Z) (w : world) :
  (∃ resp tr,
     run (Legacy.btc_price_history date now_read up now_write) w = (Val resp, (w, tr)) ∧
     upstream_calls tr = 0%nat)
  ∧
  (dd_mm_yyyy date → fresh_entry w date now_read = None →
     run (Legacy.btc_price_history date now_read up now_write) w =
       (Val (Http 500 (JObj [("error", JStr "Failed to fetch BTC price history")])),
        (w, [EvSelect date]))).
Proof.
  assert (Hmiss : regex_test date_regex date = true →
            truthy (from_option price_data JNull (fresh_entry w date now_read)) = false →
            run (Legacy.btc_price_history date now_read up now_write) w =
              (Val history_failed, (w, [EvSelect date]))).
  { intros Hre Hf. unfold run, Legacy.btc_price_history. rewrite Hre. cbn [negb].
    munfold. rewrite getPriceFromCache_run, Hf. reflexivity. }
  split.
  - destruct (regex_test date_regex date) eqn:Hre.
    + destruct (truthy (from_option price_data JNull (fresh_entry w date now_read))) eqn:Hf.
      * exists (Http 200 (from_option price_data JNull (fresh_entry w date now_read))),
               [EvSelect date].
        split; [|reflexivity].
        unfold run, Legacy.btc_price_history. rewrite Hre. cbn [negb].
        munfold. rewrite getPriceFromCache_run, Hf. reflexivity.
      * rewrite (Hmiss eq_refl eq_refl). eauto.
    + exists invalid_date, []. split; [|reflexivity].
      unfold run, Legacy.btc_price_history. rewrite Hre. reflexivity.
  - intros Hd Hf. apply date_regex_spec in Hd. apply (Hmiss Hd). rewrite Hf. reflexivity.
Qed.

Lemma legacy_history_never_fetches_witness :
  let data := JObj [("market_data", JObj [("current_price", JObj [("usd", JNum (65000 # 1))])])] in
  run (Legacy.btc_price_history "19-05-2025" 1000
         (FetchResolved (Response true 200 "OK" (Some data))) 1001) init_world =
    (Val (Http 500 (JObj [("error", JStr "Failed to fetch BTC price history")])),
     (init_world, [EvSelect "19-05-2025"])).
Proof.
  intros data.
  apply (proj2 (legacy_history_never_fetches "19-05-2025" 1000
                  (FetchResolved (Response true 200 "OK" (Some data))) 1001 init_world)).
  - apply date_regex_spec. vm_compute. reflexivity.
  - reflexivity.
Defined.

Lemma has_comma_app s1 s2 : has_comma (s1 ++ s2) = has_comma s1 || has_comma s2.
Proof.
  induction s1 as [|c s1 IH]; simpl; [reflexivity|].
  rewrite IH. apply orb_assoc.
Qed.

Lemma lower_ascii_comma c : Ascii.eqb (lower_ascii c) ","%char = Ascii.eqb c ","%char.
Proof. destruct c as [[] [] [] [] [] [] [] []]; reflexivity. Qed.

Lemma has_comma_toLowerCase s : has_comma (toLowerCase s) = has_comma s.
Proof.
  unfold toLowerCase. induction s as [|c s IH]; cbn [has_comma string_map]; [reflexivity|].
  rewrite lower_ascii_comma, IH. reflexivity.
Qed.

Lemma join_two_has_comma x y rest : has_comma (join "," (x :: y :: rest)) = true.
Proof.
  change (join "," (x :: y :: rest)) with (x ++ "," ++ join "," (y :: rest)).
  rewrite has_comma_app.
  assert (E : has_comma ("," ++ join "," (y :: rest)) = true) by reflexivity.
  rewrite E. apply orb_true_r.
Qed.

(** X18. A currency parameter given more than once never selects a single
    currency: the values are joined with commas, so the text is no
    currency code, and the request is handled as one for the full
    supported list, exactly as if the parameter were absent.  The same
    holds for an empty value and for a nested object. *)
Theorem repeated_currency_selects_all (v1 v2 : qparam) (rest : list qparam) :
  currenciesToReturn (currencyParam (Some (QArr (v1 :: v2 :: rest)))) = supportedCurrencies ∧
  currenciesToReturn (currencyParam (Some (QStr ""))) = supportedCurrencies ∧
  currenciesToReturn (currencyParam (Some QObj)) = supportedCurrencies ∧
  ∀ date now_read up now_write w,
    run (btc_price_history date (Some (QArr (v1 :: v2 :: rest))) now_read up now_write) w =
    run (btc_price_history date None now_read up now_write) w.
Proof.
  assert (E : currenciesToReturn (currencyParam (Some (QArr (v1 :: v2 :: rest)))) =
              supportedCurrencies).
  { apply currenciesToReturn_unrecognized. intros c Hc0 Hin.
    assert (Hc : has_comma c = true).
    { injection Hc0 as <-. rewrite has_comma_toLowerCase.
      change (qtoString (QArr (v1 :: v2 :: rest)))
        with (join "," (qtoString v1 :: qtoString v2 :: map qtoString rest)).
      apply join_two_has_comma. }
    cbn in Hin. destruct Hin as [H|[H|[H|[H|[H|[]]]]]]; rewrite <- H in Hc; discriminate. }
  split_and!; [exact E|reflexivity|reflexivity|].
  intros date now_read up now_write w. unfold run, btc_price_history. rewrite E. reflexivity.
Qed.

(** X19. A current-price request calls the upstream service exactly when
    the slot holds no payload or the payload was fetched 5 minutes ago or
    earlier; the first request after a start therefore always does, and
    so does a request exactly 5 minutes after the last fetch. *)
Theorem live_upstream_exactly (w : world) (now : Z) (up : fetch_result) :
  reachable w →
  (cachedBtcData w ≠ JNull ∧ now - lastFetchTime w < CACHE_DURATION_MS →
     upstream_calls (run (btc_data now up) w).2.2 = 0%nat) ∧
  (cachedBtcData w = JNull ∨ (CACHE_DURATION_MS ≤ now - lastFetchTime w)%Z →
     upstream_calls (run (btc_data now up) w).2.2 = 1%nat).
Proof.
  intros Hw. destruct (reachable_ok w Hw) as [Hc _]. split.
  - intros [Hn Hage]. rewrite btc_data_hit; [reflexivity|].
    unfold live_cache_valid. destruct Hc as [Hc|Hc]; [contradiction|].
    rewrite Hc. apply Z.ltb_lt in Hage. rewrite Hage. reflexivity.
  - intros H. rewrite btc_data_refresh.
    + cbv zeta. destruct up as [|r]; [reflexivity|].
      destruct (resp_ok r); [|reflexivity].
      destruct (resp_json r) as [data|]; [|reflexivity].
      destruct (has_bitcoin data); reflexivity.
    + unfold live_cache_valid. destruct H as [->|H]; [reflexivity|].
      apply andb_false_iff. right. apply Z.ltb_ge. exact H.
Qed.

Lemma live_upstream_exactly_witness :
  let data := JObj [("bitcoin", JObj [("usd", JNum (65000 # 1))])] in
  let w1 := world_after (btc_data 1000000 (FetchResolved (Response true 200 "OK" (Some data))))
              init_world in
  upstream_calls (run (btc_data 1000 FetchRejected) init_world).2.2 = 1%nat ∧
  upstream_calls (run (btc_data 1300000 FetchRejected) w1).2.2 = 1%nat ∧
  upstream_calls (run (btc_data 1299999 FetchRejected) w1).2.2 = 0%nat.
Proof.
  intros data w1. split_and!.
  - apply (proj2 (live_upstream_exactly init_world 1000 FetchRejected reach_init)).
    left. reflexivity.
  - apply (proj2 (live_upstream_exactly w1 1300000 FetchRejected
                    (reach_btc_data _ _ _ reach_init))).
    right. vm_compute. discriminate.
  - apply (proj1 (live_upstream_exactly w1 1299999 FetchRejected
                    (reach_btc_data _ _ _ reach_init))).
    split; [vm_compute; discriminate|vm_compute; reflexivity].
Defined.

(** X20. A history request calls the upstream service exactly when its date
    is well formed and the store has no entry younger than 24 hours under
    its key; a request with a malformed date makes no call at all. *)
Theorem history_upstream_exactly (date : string) (currency : option qparam)
    (now_read : Z) (up : fetch_result) (now_write : Z) (w : world) :
  let key := cacheKey date (currenciesToReturn (currencyParam currency)) in
  let tr := (run (btc_price_history date currency now_read up now_write) w).2.2 in
  reachable w →
  (¬ dd_mm_yyyy date → tr = []) ∧
  (dd_mm_yyyy date →
     (upstream_calls tr = 0%nat ↔
      ∃ r, db w !! key = Some r ∧ now_read - timestamp r < oneDayMs) ∧
     (upstream_calls tr = 1%nat ↔
      ∀ r, db w !! key = Some r → (oneDayMs ≤ now_read - timestamp r)%Z)).
Proof.
  intros key tr Hw. split.
  - intros Hd. unfold tr. rewrite history_invalid; [reflexivity|].
    destruct (regex_test date_regex date) eqn:E; [|reflexivity].
    apply date_regex_spec in E. contradiction.
  - intros Hd. apply date_regex_spec in Hd.
    destruct (fresh_entry w key now_read) as [r|] eqn:Hf.
    + assert (Hr := Hf). apply fresh_entry_lookup in Hr as [Hr Hage].
      assert (Htr : tr = [EvSelect key]).
      { unfold tr. rewrite (history_hit _ _ _ _ _ _ _ Hd Hf); [reflexivity|].
        destruct (reachable_ok w Hw) as [_ Hrows]. eapply Hrows. exact Hr. }
      rewrite Htr. split; split.
      * intros _. eauto.
      * reflexivity.
      * discriminate.
      * intros H. specialize (H r Hr). lia.
    + assert (Hcalls : upstream_calls tr = 1%nat).
      { unfold tr. rewrite (history_miss _ _ _ _ _ _ Hd) by (fold key; rewrite Hf; reflexivity).
        destruct up as [|rs]; [reflexivity|].
        destruct (resp_ok rs); [|reflexivity].
        destruct (resp_json rs) as [data|]; [|reflexivity].
        destruct (truthy (allPrices_of data)); [|reflexivity].
        destruct (kept_prices _ _ _); reflexivity. }
      rewrite Hcalls. split; split.
      * discriminate.
      * intros (r & Hr & Hage).
        assert (fresh_entry w key now_read = Some r) by (apply fresh_entry_lookup; auto).
        congruence.
      * intros _ r Hr.
        destruct (Z.lt_ge_cases (now_read - timestamp r) oneDayMs) as [Hlt|Hge]; [|exact Hge].
        assert (fresh_entry w key now_read = Some r) by (apply fresh_entry_lookup; auto).
        congruence.
      * reflexivity.
Qed.

Lemma history_upstream_exactly_witness :
  (run (btc_price_history "2025-05-19" None 1000 FetchRejected 1001) init_world).2.2 = [] ∧
  upstream_calls
    (run (btc_price_history "19-05-2025" None 1000 FetchRejected 1001) init_world).2.2 = 1%nat.
Proof.
  split.
  - apply (proj1 (history_upstream_exactly "2025-05-19" None 1000 FetchRejected 1001
                    init_world reach_init)).
    intros H. apply date_regex_spec in H. vm_compute in H. discriminate.
  - apply (proj2 (proj2 (history_upstream_exactly "19-05-2025" None 1000 FetchRejected 1001
                           init_world reach_init)
                   ltac:(apply date_regex_spec; vm_compute; reflexivity))).
    intros r Hr. vm_compute in Hr. discriminate.
Defined.
